(** * Kasir-App: the cart and pricing logic of the [Transaction] component

    A shallow embedding of the checkout code of [frontend/src/App.js]
    (the [Transaction] React component, lines 509-781) together with the
    properties of it that the specification states.

    Conventions of the embedding.
    - A [Q] in a catalog record or in the amount field is the decimal the
      service sent or the cashier typed. The handlers are first embedded
      with amounts as these exact rationals, [NaN] (which [parseFloat]
      produces on the empty string) kept apart in [Js.number]; the
      properties stated on that embedding are those of the cart, of the
      request and of the state, which rounding does not touch.
    - The totals and the change are embedded once more in IEEE binary64,
      the arithmetic JavaScript computes with (module [Binary64]); what is
      stated about a computed amount is stated there.
    - A quantity is an integer ([Z]): the component only ever produces
      quantities from the literal [1] by [+ 1] and [- 1].
    - The React state of the component is a record; every handler is a
      function of the state it closes over to the state it sets. *)

From Stdlib Require Import List String Ascii ZArith QArith Qminmax Bool Lia Lqa.
From Stdlib Require Import SpecFloat.
Import ListNotations.

Local Open Scope string_scope.
Local Open Scope list_scope.

(** ** JavaScript values *)

Module Js.

(** The result of [parseFloat]: a number or [NaN]. *)
Inductive number : Type :=
| NaN
| Num (q : Q).

(** [a < b] for a possibly-[NaN] left operand: every comparison with
    [NaN] is false. *)
Definition lt (a : number) (b : Q) : bool :=
  match a with
  | NaN => false
  | Num x => negb (Qle_bool b x)
  end.

(** [a >= b], false on [NaN] as well. *)
Definition ge (a : number) (b : Q) : bool :=
  match a with
  | NaN => false
  | Num x => Qle_bool b x
  end.

(** [a - b]. *)
Definition sub (a : number) (b : Q) : number :=
  match a with
  | NaN => NaN
  | Num x => Num (x - b)
  end.

(** [v || 0] where [v] is the result of an optional-chained read of a
    numeric field: [undefined] and [0] are falsy, so both give [0]. *)
Definition or_zero (v : option Q) : Q :=
  match v with
  | None => 0
  | Some x => if Qeq_bool x 0 then 0 else x
  end.

(** [v || d] where [v] is the result of an optional-chained read of a
    string field: [undefined] and [''] are falsy, so both give [d]. *)
Definition or_default (v : option string) (d : string) : string :=
  match v with
  | None => d
  | Some EmptyString => d
  | Some s => s
  end.

(** The string held by a state variable that backs an
    [<input type="number">]: the browser keeps it either empty or the
    text of a number. *)
Inductive input : Type :=
| Empty
| Entered (q : Q).

(** Truthiness of such a string: only [''] is falsy (the text ["0"] is a
    non-empty string, hence truthy). *)
Definition truthy (s : input) : bool :=
  match s with
  | Empty => false
  | Entered _ => true
  end.

Definition parseFloat (s : input) : number :=
  match s with
  | Empty => NaN
  | Entered q => Num q
  end.

End Js.

(** ** Data received from the catalog service *)

Module Product.
Record t : Type := make {
  id : string;
  name : string;
  sku : string;
  price_regular : Q;
  price_sales : Q;
  price_bengkel : Q;
  stock : Z;
  min_stock : Z;
  category : string
}.
End Product.

Module CustomerType.
Record t : Type := make {
  id : string;
  name : string;
  display_name : string;
  discount_percentage : Q
}.
End CustomerType.

(** A cart entry, [{ product_id, product, quantity }]. *)
Module CartItem.
Record t : Type := make {
  product_id : string;
  product : Product.t;
  quantity : Z
}.

(** [{ ...item, quantity: q }] *)
Definition with_quantity (item : t) (q : Z) : t :=
  {| product_id := product_id item; product := product item; quantity := q |}.
End CartItem.

Definition Cart : Type := list CartItem.t.

(** The two [<option>]s of the payment-method [<select>]. *)
Inductive PaymentMethod : Type :=
| tunai
| transfer.

(** The [useState] cells of [Transaction] (lines 510-518). *)
Record State : Type := mkState {
  products : list Product.t;
  customerTypes : list CustomerType.t;
  cart : Cart;
  selectedCustomerType : string;
  paymentMethod : PaymentMethod;
  paymentAmount : Js.input;
  searchTerm : string;
  manualDiscountType : string;  (* 'none', 'percentage', 'amount' *)
  manualDiscountValue : Js.input
}.

(** The initial values passed to [useState]. *)
Definition initialState : State :=
  {| products := [];
     customerTypes := [];
     cart := [];
     selectedCustomerType := "regular";
     paymentMethod := tunai;
     paymentAmount := Js.Empty;
     searchTerm := EmptyString;
     manualDiscountType := "none";
     manualDiscountValue := Js.Empty |}.

(** ** Cart handlers (lines 543-566) *)

(** [item.product_id === id] *)
Definition is_line (id : string) (item : CartItem.t) : bool :=
  String.eqb (CartItem.product_id item) id.

(** [addToCart(product)]: the value handed to [setCart]. *)
Definition addToCart (cart : Cart) (product : Product.t) : Cart :=
  let existingItem := find (is_line (Product.id product)) cart in
  match existingItem with
  | Some _ =>
      map (fun item =>
             if is_line (Product.id product) item
             then CartItem.with_quantity item (CartItem.quantity item + 1)
             else item) cart
  | None =>
      cart ++ [ {| CartItem.product_id := Product.id product;
                   CartItem.product := product;
                   CartItem.quantity := 1 |} ]
  end.

(** [updateCartItem(productId, quantity)]: the value handed to [setCart]. *)
Definition updateCartItem (cart : Cart) (productId : string) (quantity : Z) : Cart :=
  if (quantity <=? 0)%Z
  then filter (fun item => negb (is_line productId item)) cart
  else map (fun item =>
              if is_line productId item
              then CartItem.with_quantity item quantity
              else item) cart.

(** ** Price selection and totals (lines 568-593) *)

(** [getPrice(product, customerType)]: a [switch], whose [case] labels are
    compared with [===] in order. *)
Definition getPrice (product : Product.t) (customerType : string) : Q :=
  if String.eqb customerType "sales" then Product.price_sales product
  else if String.eqb customerType "bengkel" then Product.price_bengkel product
  else Product.price_regular product.

Record Totals : Type := mkTotals {
  subtotal : Q;
  discountAmount : Q;
  total : Q
}.

Definition calculateTotal (st : State) : Totals :=
  let selectedCustomerTypeData :=
    find (fun ct => String.eqb (CustomerType.name ct) (selectedCustomerType st))
         (customerTypes st) in
  let discountPercentage :=
    Js.or_zero (option_map CustomerType.discount_percentage selectedCustomerTypeData) in
  let subtotal :=
    fold_left
      (fun subtotal item =>
         let price := getPrice (CartItem.product item) (selectedCustomerType st) in
         subtotal + price * inject_Z (CartItem.quantity item))
      (cart st) 0 in
  let discountAmount := subtotal * (discountPercentage / 100) in
  let total := subtotal - discountAmount in
  {| subtotal := subtotal; discountAmount := discountAmount; total := total |}.

(** ** Checkout (lines 595-627 and 763-775) *)

(** The object posted to [/transactions]. *)
Module TransactionItem.
Record t : Type := make {
  product_id : string;
  quantity : Z
}.
End TransactionItem.

Record TransactionData : Type := mkTransactionData {
  customer_type : string;
  items : list TransactionItem.t;
  payment_method : PaymentMethod;
  payment_amount : Js.number
}.

(** What the persistence service answers to the [POST]: either it resolves,
    after which [fetchProducts] may replace the product list, or the promise
    is rejected, possibly with a [detail] message. *)
Inductive Response : Type :=
| Resolved (refreshed : option (list Product.t))
| Rejected (detail : option string).

(** The three [alert] calls of [processTransaction]. *)
Inductive Alert : Type :=
| InsufficientPayment                 (* 'Jumlah pembayaran tidak mencukupi!' *)
| Success (kembalian : Js.number)     (* 'Transaksi berhasil! Kembalian: Rp ...' *)
| Failure (message : string).

(** What one run of [processTransaction] does: the requests it posts, the
    alert it shows and the state it leaves. *)
Record Outcome : Type := mkOutcome {
  posted : list TransactionData;
  alerted : Alert;
  next : State
}.

(** The literal built at lines 605-613. *)
Definition transactionData (st : State) (payAmount : Js.number) : TransactionData :=
  {| customer_type := selectedCustomerType st;
     items := map (fun item =>
                     {| TransactionItem.product_id := CartItem.product_id item;
                        TransactionItem.quantity := CartItem.quantity item |})
                  (cart st);
     payment_method := paymentMethod st;
     payment_amount := payAmount |}.

(** [processTransaction()], with the service as a function of the request. *)
Definition processTransaction (service : TransactionData -> Response) (st : State) : Outcome :=
  let total := total (calculateTotal st) in
  let payAmount := Js.parseFloat (paymentAmount st) in
  if Js.lt payAmount total
  then {| posted := []; alerted := InsufficientPayment; next := st |}
  else
    let data := transactionData st payAmount in
    match service data with
    | Resolved refreshed =>
        {| posted := [data];
           alerted := Success (Js.sub payAmount total);
           next := {| products := match refreshed with
                                  | Some ps => ps
                                  | None => products st
                                  end;
                      customerTypes := customerTypes st;
                      cart := [];
                      selectedCustomerType := selectedCustomerType st;
                      paymentMethod := paymentMethod st;
                      paymentAmount := Js.Empty;
                      searchTerm := searchTerm st;
                      manualDiscountType := manualDiscountType st;
                      manualDiscountValue := manualDiscountValue st |} |}
    | Rejected detail =>
        {| posted := [data];
           alerted := Failure (Js.or_default detail "Error processing transaction");
           next := st |}
    end.

(** The [disabled] attribute of the "Proses Transaksi" button (line 771). *)
Definition buttonDisabled (st : State) : bool :=
  (List.length (cart st) =? 0)%nat
  || negb (Js.truthy (paymentAmount st))
  || Js.lt (Js.parseFloat (paymentAmount st)) (total (calculateTotal st)).

(** The "Kembalian" line (lines 763-767): shown, with this amount, only
    when the guard in front of it holds. *)
Definition kembalian (st : State) : option Js.number :=
  if Js.truthy (paymentAmount st)
     && Js.ge (Js.parseFloat (paymentAmount st)) (total (calculateTotal st))
  then Some (Js.sub (Js.parseFloat (paymentAmount st)) (total (calculateTotal st)))
  else None.


(** ** Observations and invariants used in the statements *)

(** The quantity recorded for a product, if it has a line. *)
Definition lineQuantity (cart : Cart) (productId : string) : option Z :=
  option_map CartItem.quantity (find (is_line productId) cart).

Definition productIds (cart : Cart) : list string :=
  map CartItem.product_id cart.

(** The callback both handlers pass to [cart.map]: the lines of
    [productId] get their quantity rewritten by [f], the others are kept. *)
Definition requantify (productId : string) (f : Z -> Z) (item : CartItem.t) : CartItem.t :=
  if is_line productId item
  then CartItem.with_quantity item (f (CartItem.quantity item))
  else item.

(** The removal branch of [updateCartItem]. *)
Definition without (productId : string) (c : Cart) : Cart :=
  filter (fun item => negb (is_line productId item)) c.

(** The cart invariant of the data model: one line per product, every
    quantity at least one. *)
Definition cartInvariant (cart : Cart) : Prop :=
  NoDup (productIds cart)
  /\ Forall (fun item => (1 <= CartItem.quantity item)%Z) cart.



(** ** The operations as the specification words them *)

Module Spec.

(** [addLine(product, quantity)] in the words of the specification: a
    non-positive quantity is rejected; a product that already has a line
    gets that line's quantity raised by [quantity]; otherwise a new line
    with that quantity is inserted (at the end: the cart is kept in
    insertion order). *)
Definition addLine (cart : Cart) (product : Product.t) (quantity : Z) : Cart :=
  if (quantity <=? 0)%Z then cart
  else if existsb (is_line (Product.id product)) cart
  then map (fun item =>
              if is_line (Product.id product) item
              then CartItem.with_quantity item (CartItem.quantity item + quantity)
              else item) cart
  else cart ++ [ {| CartItem.product_id := Product.id product;
                    CartItem.product := product;
                    CartItem.quantity := quantity |} ].



End Spec.

(** The discount percentage [calculateTotal] reads for the selected
    customer type. *)
Definition discountPercentageOf (st : State) : Q :=
  Js.or_zero
    (option_map CustomerType.discount_percentage
       (find (fun ct => String.eqb (CustomerType.name ct) (selectedCustomerType st))
             (customerTypes st))).

(** ** The arithmetic of the totals in IEEE binary64 *)

(** JavaScript numbers are binary64 values and [+], [-], [*], [/] round to
    nearest, ties to even. This module embeds the amounts the component
    computes with that arithmetic, as [SpecFloat] defines it for a
    precision of 53 bits. A [Q] in the catalog records or in the amount
    field is the decimal written in the JSON or typed in the field; the
    number the code sees is the binary64 value nearest to it. *)
Module Binary64.

Definition prec : Z := 53.
Definition emax : Z := 1024.

Definition number : Type := spec_float.

Definition zero : number := S754_zero false.
Definition NaN : number := S754_nan.

Definition add : number -> number -> number := SFadd prec emax.
Definition sub : number -> number -> number := SFsub prec emax.
Definition mul : number -> number -> number := SFmul prec emax.
Definition div : number -> number -> number := SFdiv prec emax.

(** An integer as a number (a quantity, the literal [100]). *)
Definition ofZ (z : Z) : number := binary_normalize prec emax z 0 false.

(** The quotient of two positive integers, rounded once. *)
Definition ofRatio (s : bool) (n d : positive) : number :=
  let '(mz, ez, lz) := SFdiv_core_binary prec emax (Zpos n) 0 (Zpos d) 0 in
  binary_round_aux prec emax s mz ez lz.

(** The number a decimal denotes. *)
Definition ofQ (q : Q) : number :=
  match Qnum q with
  | Z0 => zero
  | Zpos n => ofRatio false n (Qden q)
  | Zneg n => ofRatio true n (Qden q)
  end.

(** The integer [k] with [x = k * 2^ez], for [ez] at most the exponent. *)
Definition mantissaAt (ez : Z) (s : bool) (m : positive) (e : Z) : Z :=
  cond_Zopp s (Zpos (fst (shl_align m e ez))).

(** Comparison of the values; [None] when one of them is [NaN]. It does
    not depend on how a value is represented, and is [SFcompare] on
    numbers in canonical form. *)
Definition compare (x y : number) : option comparison :=
  match x, y with
  | S754_nan, _ | _, S754_nan => None
  | S754_infinity sx, S754_infinity sy =>
      Some (if sx then (if sy then Eq else Lt) else (if sy then Gt else Eq))
  | S754_infinity sx, _ => Some (if sx then Lt else Gt)
  | _, S754_infinity sy => Some (if sy then Gt else Lt)
  | S754_zero _, S754_zero _ => Some Eq
  | S754_zero _, S754_finite sy _ _ => Some (if sy then Gt else Lt)
  | S754_finite sx _ _, S754_zero _ => Some (if sx then Lt else Gt)
  | S754_finite sx mx ex, S754_finite sy my ey =>
      let ez := Z.min ex ey in
      Some (Z.compare (mantissaAt ez sx mx ex) (mantissaAt ez sy my ey))
  end.

(** [x < y] and [x >= y]: false when either side is [NaN]. *)
Definition ltb (x y : number) : bool :=
  match compare x y with
  | Some Lt => true
  | _ => false
  end.

Definition geb (x y : number) : bool :=
  match compare x y with
  | Some Gt | Some Eq => true
  | _ => false
  end.

(** A number below zero ([-0] and [NaN] are not). *)
Definition isNegative (x : number) : bool :=
  match x with
  | S754_finite true _ _ | S754_infinity true => true
  | _ => false
  end.


(** [v || 0] on an optional-chained numeric field: [undefined], [0], [-0]
    and [NaN] are falsy. *)
Definition or_zero (v : option number) : number :=
  match v with
  | None => zero
  | Some (S754_zero _) => zero
  | Some S754_nan => zero
  | Some x => x
  end.

(** [parseFloat] of the amount field. *)
Definition parseFloat (s : Js.input) : number :=
  match s with
  | Js.Empty => NaN
  | Js.Entered q => ofQ q
  end.

Record Totals : Type := mkTotals {
  subtotal : number;
  discountAmount : number;
  total : number
}.

(** [calculateTotal()] (lines 579-593). *)
Definition calculateTotal (st : State) : Totals :=
  let selectedCustomerTypeData :=
    find (fun ct => String.eqb (CustomerType.name ct) (selectedCustomerType st))
         (customerTypes st) in
  let discountPercentage :=
    or_zero (option_map (fun ct => ofQ (CustomerType.discount_percentage ct))
                        selectedCustomerTypeData) in
  let subtotal :=
    fold_left
      (fun subtotal item =>
         let price := ofQ (getPrice (CartItem.product item) (selectedCustomerType st)) in
         add subtotal (mul price (ofZ (CartItem.quantity item))))
      (cart st) zero in
  let discountAmount := mul subtotal (div discountPercentage (ofZ 100)) in
  let total := sub subtotal discountAmount in
  {| subtotal := subtotal; discountAmount := discountAmount; total := total |}.

(** The percentage [calculateTotal] reads for the selected customer type. *)
Definition discountPercentageOf (st : State) : number :=
  or_zero
    (option_map (fun ct => ofQ (CustomerType.discount_percentage ct))
       (find (fun ct => String.eqb (CustomerType.name ct) (selectedCustomerType st))
             (customerTypes st))).

(** The [disabled] attribute of the button (line 771). *)
Definition buttonDisabled (st : State) : bool :=
  (List.length (cart st) =? 0)%nat
  || negb (Js.truthy (paymentAmount st))
  || ltb (parseFloat (paymentAmount st)) (total (calculateTotal st)).

(** [parseFloat(paymentAmount) - total] (lines 617 and 765). *)
Definition change (st : State) : number :=
  sub (parseFloat (paymentAmount st)) (total (calculateTotal st)).

(** The "Kembalian" line (lines 763-767). *)
Definition kembalian (st : State) : option number :=
  if Js.truthy (paymentAmount st)
     && geb (parseFloat (paymentAmount st)) (total (calculateTotal st))
  then Some (change st)
  else None.

End Binary64.

(** The claims about computed amounts, as the specification words them,
    read on the values the code computes. *)
Module Spec64.


(** Checkout is allowed exactly for a cart that is not empty and an amount
    that is a number, not negative and at least the total; the change is
    then not negative. *)
Definition checkoutAllowed (st : State) : Prop :=
  (Binary64.buttonDisabled st = false
   <-> cart st <> []
       /\ exists a, paymentAmount st = Js.Entered a
                    /\ 0 <= a
                    /\ Binary64.geb (Binary64.ofQ a)
                                    (Binary64.total (Binary64.calculateTotal st)) = true)
  /\ (Binary64.buttonDisabled st = false ->
      Binary64.isNegative (Binary64.change st) = false).

End Spec64.

(** ** The rest of the [Transaction] component *)

(** [setCart(c)]. *)
Definition setCart (st : State) (c : Cart) : State :=
  {| products := products st;
     customerTypes := customerTypes st;
     cart := c;
     selectedCustomerType := selectedCustomerType st;
     paymentMethod := paymentMethod st;
     paymentAmount := paymentAmount st;
     searchTerm := searchTerm st;
     manualDiscountType := manualDiscountType st;
     manualDiscountValue := manualDiscountValue st |}.

(** The [-] and [+] buttons drawn beside a cart line (lines 702-715):
    [updateCartItem(item.product_id, item.quantity - 1)] and
    [updateCartItem(item.product_id, item.quantity + 1)]. *)
Definition minusButton (cart : Cart) (item : CartItem.t) : Cart :=
  updateCartItem cart (CartItem.product_id item) (CartItem.quantity item - 1).

Definition plusButton (cart : Cart) (item : CartItem.t) : Cart :=
  updateCartItem cart (CartItem.product_id item) (CartItem.quantity item + 1).


(** Every line carries the product it was created from:
    [item.product_id] is [item.product.id]. *)
Definition linesCoherent (cart : Cart) : Prop :=
  Forall (fun item => CartItem.product_id item = Product.id (CartItem.product item)) cart.

(** String methods used by the search box, on strings of ASCII
    characters. *)
Module JsString.

(** One character of [toLowerCase]: the letters [A]-[Z] are folded. *)
Definition lowerChar (c : ascii) : ascii :=
  let n := nat_of_ascii c in
  if ((65 <=? n) && (n <=? 90))%nat then ascii_of_nat (n + 32) else c.

(** [s.toLowerCase()] *)
Fixpoint toLowerCase (s : string) : string :=
  match s with
  | EmptyString => EmptyString
  | String c s' => String (lowerChar c) (toLowerCase s')
  end.

(** [s.includes(sub)]: [sub] occurs in [s] at some position. *)
Fixpoint includes (s sub : string) : bool :=
  String.prefix sub s
  || match s with
     | EmptyString => false
     | String _ s' => includes s' sub
     end.

(** [s.split(sep)] for a one-character separator. *)
Fixpoint split (sep : ascii) (s : string) : list string :=
  match s with
  | EmptyString => [EmptyString]
  | String c s' =>
      if Ascii.eqb c sep then EmptyString :: split sep s'
      else match split sep s' with
           | part :: parts => String c part :: parts
           | [] => [String c EmptyString]
           end
  end.

(** [s.slice(0, n)] *)
Definition slice0 (n : nat) (s : string) : string := String.substring 0 n s.

(** A value spliced into a template literal: [undefined] prints as the
    word. *)
Definition interpolate (v : option string) : string :=
  match v with
  | Some s => s
  | None => "undefined"
  end.

(** No occurrence of the separator. *)
Fixpoint free (sep : ascii) (s : string) : bool :=
  match s with
  | EmptyString => true
  | String c s' => negb (Ascii.eqb c sep) && free sep s'
  end.

End JsString.

(** [filteredProducts] (lines 629-632) for the search term [term]. *)
Definition searchProducts (term : string) (ps : list Product.t) : list Product.t :=
  filter
    (fun product =>
       JsString.includes (JsString.toLowerCase (Product.name product))
                         (JsString.toLowerCase term)
       || JsString.includes (JsString.toLowerCase (Product.sku product))
                            (JsString.toLowerCase term))
    ps.

Definition filteredProducts (st : State) : list Product.t :=
  searchProducts (searchTerm st) (products st).

(** ** The [Reports] component (lines 784-917) *)

Module Reports.

(** [useState] cells; [reportData] is opaque here, only its presence
    matters. *)
Record State (Data : Type) : Type := mkState {
  reportType : string;
  reportDate : string;
  reportData : option Data;
  loading : bool
}.

Arguments mkState {Data}.
Arguments reportType {Data}.
Arguments reportDate {Data}.
Arguments reportData {Data}.
Arguments loading {Data}.

(** The query string built at lines 794-803. *)
Definition params (reportType reportDate : string) : string :=
  if String.eqb reportType "daily" then ("?date=" ++ reportDate)%string
  else if String.eqb reportType "weekly" then ("?start_date=" ++ reportDate)%string
  else if String.eqb reportType "monthly" then
    let parts := JsString.split "-" reportDate in
    let year := nth_error parts 0 in
    let month := nth_error parts 1 in
    ("?month=" ++ JsString.interpolate year ++ "-" ++ JsString.interpolate month)%string
  else EmptyString.

(** The address requested, [api] being the value of [API]. *)
Definition url (api reportType reportDate : string) : string :=
  (api ++ "/reports/" ++ reportType ++ params reportType reportDate)%string.

(** The [value] of the date input (line 844). *)
Definition inputValue {Data} (st : State Data) : string :=
  if String.eqb (reportType st) "monthly"
  then JsString.slice0 7 (reportDate st)
  else reportDate st.

(** Its [onChange] (line 845). *)
Definition onDateChange {Data} (st : State Data) (value : string) : State Data :=
  {| reportType := reportType st;
     reportDate := if String.eqb (reportType st) "monthly"
                   then (value ++ "-01")%string
                   else value;
     reportData := reportData st;
     loading := loading st |}.

(** [fetchReport()]: the address requested, whether the error alert is
    shown, and the state once the request has settled. *)
Definition fetchReport {Data} (api : string) (service : string -> option Data)
           (st : State Data) : string * bool * State Data :=
  let address := url api (reportType st) (reportDate st) in
  match service address with
  | Some data =>
      (address, false,
       {| reportType := reportType st; reportDate := reportDate st;
          reportData := Some data; loading := false |})
  | None =>
      (address, true,
       {| reportType := reportType st; reportDate := reportDate st;
          reportData := reportData st; loading := false |})
  end.

End Reports.

(** ** Authentication (lines 11-77 and 1042-1045) *)

Module Auth.

Record User : Type := mkUser {
  username : string
}.

(** What [login] and [logout] read and write: the two state cells of
    [AuthProvider], the [token] entry of [localStorage] and the default
    [Authorization] header of [axios]. *)
Record World : Type := mkWorld {
  user : option User;
  token : option string;
  storedToken : option string;
  authorization : option string
}.

(** The answer to [POST /auth/login]. *)
Inductive Response : Type :=
| Granted (access_token : string) (user : User)
| Denied (detail : option string).

(** [{ success: true }] or [{ success: false, error }]. *)
Inductive Result : Type :=
| Succeeded
| Failed (error : string).

Definition bearer (t : string) : string := ("Bearer " ++ t)%string.

Definition login (service : string -> string -> Response) (w : World)
           (username password : string) : World * Result :=
  match service username password with
  | Granted access_token u =>
      ({| user := Some u;
          token := Some access_token;
          storedToken := Some access_token;
          authorization := Some (bearer access_token) |},
       Succeeded)
  | Denied detail =>
      (w, Failed (Js.or_default detail "Login gagal"))
  end.

Definition logout (w : World) : World :=
  {| user := None; token := None; storedToken := None; authorization := None |}.

(** Truthiness of the [token] cell: [null] and [''] are falsy. *)
Definition hasToken (w : World) : bool :=
  match token w with
  | None => false
  | Some EmptyString => false
  | Some _ => true
  end.

(** [AuthWrapper]: [token ? <MainApp /> : <Login />]. *)
Inductive Page : Type :=
| MainApp
| Login.

Definition authWrapper (w : World) : Page :=
  if hasToken w then MainApp else Login.

(** The [useState] cells of the [Login] form. *)
Record Form : Type := mkForm {
  formUsername : string;
  formPassword : string;
  formLoading : bool;
  formError : string
}.

(** [handleSubmit]: the world and the form once [login] has settled. *)
Definition handleSubmit (service : string -> string -> Response)
           (w : World) (f : Form) : World * Form :=
  let (w', result) := login service w (formUsername f) (formPassword f) in
  (w',
   {| formUsername := formUsername f;
      formPassword := formPassword f;
      formLoading := false;
      formError := match result with
                   | Succeeded => EmptyString
                   | Failed error => error
                   end |}).

(** Whether the error line is drawn: [error && ...] (line 110). *)
Definition errorShown (f : Form) : bool :=
  match formError f with
  | EmptyString => false
  | String _ _ => true
  end.

(** The three copies of the token say the same. *)
Definition tokensAgree (w : World) : Prop :=
  storedToken w = token w
  /\ authorization w = option_map bearer (token w).

End Auth.

(** ** A sample session, used to exercise the statements *)

Definition productA : Product.t :=
  {| Product.id := "A"; Product.name := "Oli mesin"; Product.sku := "OLI-1";
     Product.price_regular := 10000; Product.price_sales := 9000;
     Product.price_bengkel := 9500;
     Product.stock := 12; Product.min_stock := 2; Product.category := "oli" |}.

Definition productB : Product.t :=
  {| Product.id := "B"; Product.name := "Busi"; Product.sku := "BSI-1";
     Product.price_regular := 5000; Product.price_sales := 5000;
     Product.price_bengkel := 4800;
     Product.stock := 40; Product.min_stock := 5; Product.category := "busi" |}.

Definition sampleCustomerTypes : list CustomerType.t :=
  [ {| CustomerType.id := "1"; CustomerType.name := "regular";
       CustomerType.display_name := "Biasa"; CustomerType.discount_percentage := 0 |};
    {| CustomerType.id := "2"; CustomerType.name := "sales";
       CustomerType.display_name := "Sales"; CustomerType.discount_percentage := 10 |};
    {| CustomerType.id := "3"; CustomerType.name := "bengkel";
       CustomerType.display_name := "Bengkel"; CustomerType.discount_percentage := 5 |} ].

(** Two of A and one of B. *)
Definition sampleCart : Cart :=
  addToCart (addToCart (addToCart [] productA) productB) productA.

Definition sampleState : State :=
  {| products := [productA; productB];
     customerTypes := sampleCustomerTypes;
     cart := sampleCart;
     selectedCustomerType := "sales";
     paymentMethod := tunai;
     paymentAmount := Js.Entered 25000;
     searchTerm := EmptyString;
     manualDiscountType := "none";
     manualDiscountValue := Js.Empty |}.



(** A service that accepts every request, and one that refuses every
    request for lack of stock. *)
Definition acceptingService (_ : TransactionData) : Response :=
  Resolved (Some [productB]).

Definition refusingService (_ : TransactionData) : Response :=
  Rejected (Some "Insufficient stock").

(** The sample session with a search typed in capitals. *)
Definition searchState : State :=
  {| products := [productA; productB];
     customerTypes := sampleCustomerTypes;
     cart := [];
     selectedCustomerType := "regular";
     paymentMethod := tunai;
     paymentAmount := Js.Empty;
     searchTerm := "BUSI";
     manualDiscountType := "none";
     manualDiscountValue := Js.Empty |}.

(** A report screen in monthly mode, and a report service that is down. *)
Definition monthlyReports : Reports.State nat :=
  {| Reports.reportType := "monthly";
     Reports.reportDate := "2024-03-15";
     Reports.reportData := Some 7%nat;
     Reports.loading := false |}.

Definition reportsDown (_ : string) : option nat := None.

(** A login service that knows one account. *)
Definition sampleLogin (username password : string) : Auth.Response :=
  if String.eqb username "admin" && String.eqb password "admin123"
  then Auth.Granted "t0k3n" (Auth.mkUser "admin")
  else Auth.Denied (Some "Incorrect username or password").

Definition loggedOut : Auth.World :=
  {| Auth.user := None; Auth.token := None;
     Auth.storedToken := None; Auth.authorization := None |}.

Definition adminForm : Auth.Form :=
  {| Auth.formUsername := "admin"; Auth.formPassword := "admin123";
     Auth.formLoading := false; Auth.formError := EmptyString |}.

Definition wrongForm : Auth.Form :=
  {| Auth.formUsername := "admin"; Auth.formPassword := "secret";
     Auth.formLoading := false; Auth.formError := EmptyString |}.

(** One article at 700 sold to a customer type with a seventy percent
    discount, 210 tendered. *)
Definition productC : Product.t :=
  {| Product.id := "C"; Product.name := "Aki"; Product.sku := "AKI-1";
     Product.price_regular := 700; Product.price_sales := 700;
     Product.price_bengkel := 700;
     Product.stock := 3; Product.min_stock := 1; Product.category := "aki" |}.

Definition customerTypeAt (name : string) (percentage : Q) : CustomerType.t :=
  {| CustomerType.id := name; CustomerType.name := name;
     CustomerType.display_name := name;
     CustomerType.discount_percentage := percentage |}.

Definition seventyPercentState : State :=
  {| products := [productC];
     customerTypes := [customerTypeAt "mitra" 70];
     cart := addToCart [] productC;
     selectedCustomerType := "mitra";
     paymentMethod := tunai;
     paymentAmount := Js.Entered 210;
     searchTerm := EmptyString;
     manualDiscountType := "none";
     manualDiscountValue := Js.Empty |}.

(** The sample cart at the regular tier under a customer type whose
    percentage the service sent as [percentage], [amount] tendered. *)
Definition stateAt (percentage amount : Q) : State :=
  {| products := [productA; productB];
     customerTypes := [customerTypeAt "regular" percentage];
     cart := sampleCart;
     selectedCustomerType := "regular";
     paymentMethod := tunai;
     paymentAmount := Js.Entered amount;
     searchTerm := EmptyString;
     manualDiscountType := "none";
     manualDiscountValue := Js.Empty |}.

(** Two articles priced near the largest binary64 value, whose subtotal
    overflows. *)
Definition productD : Product.t :=
  {| Product.id := "D"; Product.name := "Mesin"; Product.sku := "MSN-1";
     Product.price_regular := inject_Z (10 ^ 308);
     Product.price_sales := inject_Z (10 ^ 308);
     Product.price_bengkel := inject_Z (10 ^ 308);
     Product.stock := 2; Product.min_stock := 0; Product.category := "mesin" |}.

Definition overflowState : State :=
  {| products := [productD];
     customerTypes := [customerTypeAt "regular" 10];
     cart := addToCart (addToCart [] productD) productD;
     selectedCustomerType := "regular";
     paymentMethod := tunai;
     paymentAmount := Js.Entered 0;
     searchTerm := EmptyString;
     manualDiscountType := "none";
     manualDiscountValue := Js.Empty |}.

(** * Properties *)

(** ** Lines and product identifiers *)

Section Lines.

Variable productId : string.

Lemma is_line_spec (item : CartItem.t) :
  is_line productId item = true <-> CartItem.product_id item = productId.
Proof. unfold is_line. apply String.eqb_eq. Qed.

Lemma is_line_false (item : CartItem.t) :
  is_line productId item = false <-> CartItem.product_id item <> productId.
Proof. unfold is_line. apply String.eqb_neq. Qed.

Lemma is_line_with_quantity (id : string) (item : CartItem.t) (q : Z) :
  is_line id (CartItem.with_quantity item q) = is_line id item.
Proof. reflexivity. Qed.

Lemma existsb_is_line (c : Cart) :
  existsb (is_line productId) c = true <-> In productId (productIds c).
Proof.
  unfold productIds. rewrite existsb_exists, in_map_iff.
  split; intros [item [H1 H2]]; exists item.
  - apply is_line_spec in H2. auto.
  - split; [assumption | now apply is_line_spec].
Qed.

Lemma find_is_line (c : Cart) :
  find (is_line productId) c = None <-> ~ In productId (productIds c).
Proof.
  induction c as [|item c IH]; simpl.
  - tauto.
  - destruct (is_line productId item) eqn:E.
    + apply is_line_spec in E. split; [discriminate | intros H; exfalso; auto].
    + apply is_line_false in E. rewrite IH. tauto.
Qed.

Lemma find_existsb (c : Cart) :
  existsb (is_line productId) c
  = match find (is_line productId) c with Some _ => true | None => false end.
Proof.
  induction c as [|item c IH]; simpl; [reflexivity|].
  destruct (is_line productId item); simpl; auto.
Qed.

Lemma requantify_id (f : Z -> Z) (item : CartItem.t) :
  CartItem.product_id (requantify productId f item) = CartItem.product_id item.
Proof. unfold requantify. destruct (is_line productId item); reflexivity. Qed.

Lemma is_line_requantify (id : string) (f : Z -> Z) (item : CartItem.t) :
  is_line id (requantify productId f item) = is_line id item.
Proof. unfold is_line. rewrite requantify_id. reflexivity. Qed.

Lemma requantify_ids (f : Z -> Z) (c : Cart) :
  productIds (map (requantify productId f) c) = productIds c.
Proof.
  unfold productIds. rewrite map_map. apply map_ext. apply requantify_id.
Qed.

Lemma requantify_absent (f : Z -> Z) (c : Cart) :
  ~ In productId (productIds c) -> map (requantify productId f) c = c.
Proof.
  induction c as [|item c IH]; simpl; intros H; [reflexivity|].
  rewrite IH by tauto. f_equal. unfold requantify.
  destruct (is_line productId item) eqn:E; [|reflexivity].
  apply is_line_spec in E. tauto.
Qed.

Lemma requantify_compose (f g : Z -> Z) (c : Cart) :
  map (requantify productId g) (map (requantify productId f) c)
  = map (requantify productId (fun q => g (f q))) c.
Proof.
  rewrite map_map. apply map_ext. intros item. unfold requantify.
  destruct (is_line productId item) eqn:E.
  - rewrite is_line_with_quantity, E. reflexivity.
  - rewrite E. reflexivity.
Qed.

Lemma requantify_ext (f g : Z -> Z) (c : Cart) :
  (forall q, f q = g q) -> map (requantify productId f) c = map (requantify productId g) c.
Proof.
  intros H. apply map_ext. intros item. unfold requantify.
  destruct (is_line productId item); [rewrite H|]; reflexivity.
Qed.

Lemma requantify_lineQuantity (f : Z -> Z) (c : Cart) :
  lineQuantity (map (requantify productId f) c) productId
  = option_map f (lineQuantity c productId).
Proof.
  unfold lineQuantity.
  induction c as [|item c IH]; simpl; [reflexivity|].
  rewrite is_line_requantify.
  destruct (is_line productId item) eqn:E; [|exact IH].
  simpl. unfold requantify. rewrite E. reflexivity.
Qed.

Lemma requantify_lineQuantity_other (id : string) (f : Z -> Z) (c : Cart) :
  id <> productId ->
  lineQuantity (map (requantify productId f) c) id = lineQuantity c id.
Proof.
  intros Hne. unfold lineQuantity.
  induction c as [|item c IH]; simpl; [reflexivity|].
  rewrite is_line_requantify.
  destruct (is_line id item) eqn:E; [|exact IH].
  simpl. unfold requantify.
  assert (is_line productId item = false) as ->; [|reflexivity].
  apply is_line_false. apply String.eqb_eq in E. congruence.
Qed.

Lemma requantify_quantity (f : Z -> Z) (c : Cart) (item : CartItem.t) :
  In item (map (requantify productId f) c) ->
  CartItem.product_id item = productId ->
  exists q, CartItem.quantity item = f q.
Proof.
  rewrite in_map_iff. intros [item0 [<- _]] Hid.
  rewrite requantify_id in Hid. apply is_line_spec in Hid.
  unfold requantify. rewrite Hid. simpl. eauto.
Qed.

Lemma requantify_Forall (P : Z -> Prop) (f : Z -> Z) (c : Cart) :
  (forall q, P q -> P (f q)) ->
  Forall (fun item => P (CartItem.quantity item)) c ->
  Forall (fun item => P (CartItem.quantity item)) (map (requantify productId f) c).
Proof.
  intros Hf H. rewrite Forall_map. revert H. apply Forall_impl.
  intros item HP. unfold requantify.
  destruct (is_line productId item); simpl; auto.
Qed.

Lemma without_In (c : Cart) (item : CartItem.t) :
  In item (without productId c) <-> In item c /\ CartItem.product_id item <> productId.
Proof.
  unfold without. rewrite filter_In, negb_true_iff, is_line_false. tauto.
Qed.

Lemma without_ids (c : Cart) :
  productIds (without productId c)
  = filter (fun id => negb (String.eqb id productId)) (productIds c).
Proof.
  unfold without, productIds.
  induction c as [|item c IH]; simpl; [reflexivity|].
  unfold is_line at 1.
  destruct (String.eqb (CartItem.product_id item) productId); simpl; congruence.
Qed.

Lemma without_absent (c : Cart) :
  ~ In productId (productIds c) -> without productId c = c.
Proof.
  unfold without.
  induction c as [|item c IH]; simpl; intros H; [reflexivity|].
  destruct (is_line productId item) eqn:E; simpl.
  - apply is_line_spec in E. tauto.
  - rewrite IH by tauto. reflexivity.
Qed.

Lemma without_lineQuantity (c : Cart) :
  lineQuantity (without productId c) productId = None.
Proof.
  unfold lineQuantity.
  assert (find (is_line productId) (without productId c) = None) as ->; [|reflexivity].
  apply find_is_line. rewrite without_ids, filter_In, negb_true_iff.
  intros [_ H]. apply String.eqb_neq in H. congruence.
Qed.

Lemma without_lineQuantity_other (id : string) (c : Cart) :
  id <> productId -> lineQuantity (without productId c) id = lineQuantity c id.
Proof.
  intros Hne. unfold lineQuantity, without.
  induction c as [|item c IH]; simpl; [reflexivity|].
  destruct (is_line productId item) eqn:E; simpl.
  - apply is_line_spec in E.
    assert (is_line id item = false) as ->
        by (apply String.eqb_neq; congruence).
    exact IH.
  - destruct (is_line id item); [reflexivity | exact IH].
Qed.

End Lines.

Lemma addToCart_unfold (c : Cart) (p : Product.t) :
  addToCart c p
  = if existsb (is_line (Product.id p)) c
    then map (requantify (Product.id p) (fun q => q + 1)%Z) c
    else c ++ [ CartItem.make (Product.id p) p 1 ].
Proof.
  unfold addToCart. rewrite find_existsb.
  destruct (find (is_line (Product.id p)) c); reflexivity.
Qed.

Lemma updateCartItem_unfold (c : Cart) (id : string) (q : Z) :
  updateCartItem c id q
  = if (q <=? 0)%Z then without id c else map (requantify id (fun _ => q)) c.
Proof. reflexivity. Qed.

Lemma NoDup_filter_ids (f : string -> bool) (l : list string) :
  NoDup l -> NoDup (filter f l).
Proof.
  induction 1 as [|x l Hx Hl IH]; simpl; [constructor|].
  destruct (f x); [constructor|]; auto.
  rewrite filter_In. tauto.
Qed.

Lemma productIds_app (c1 c2 : Cart) :
  productIds (c1 ++ c2) = productIds c1 ++ productIds c2.
Proof. apply map_app. Qed.

Lemma NoDup_snoc (l : list string) (x : string) :
  NoDup l -> ~ In x l -> NoDup (l ++ [x]).
Proof.
  induction 1 as [|y l Hy Hl IH]; simpl; intros Hx.
  - constructor; [tauto | constructor].
  - constructor.
    + rewrite in_app_iff. simpl. intros [H | [H | []]]; [tauto|]. subst. tauto.
    + apply IH. tauto.
Qed.

(** ** The cart invariant *)

Lemma cartInvariant_nil : cartInvariant [].
Proof. split; constructor. Qed.

Lemma addToCart_invariant (c : Cart) (p : Product.t) :
  cartInvariant c -> cartInvariant (addToCart c p).
Proof.
  intros [Hids Hq]. rewrite addToCart_unfold.
  destruct (existsb (is_line (Product.id p)) c) eqn:E.
  - split.
    + rewrite requantify_ids. exact Hids.
    + apply (requantify_Forall _ (fun q => (1 <= q)%Z)); [lia | exact Hq].
  - split.
    + rewrite productIds_app. apply NoDup_snoc; [exact Hids|].
      simpl. intros Hin. apply existsb_is_line in Hin. congruence.
    + apply Forall_app. split; [exact Hq|]. repeat constructor. simpl. lia.
Qed.

Lemma updateCartItem_invariant (c : Cart) (id : string) (q : Z) :
  cartInvariant c -> cartInvariant (updateCartItem c id q).
Proof.
  intros [Hids Hq]. rewrite updateCartItem_unfold.
  destruct (q <=? 0)%Z eqn:E.
  - split.
    + rewrite without_ids. apply NoDup_filter_ids. exact Hids.
    + rewrite Forall_forall in *. intros item Hin.
      apply without_In in Hin. apply Hq. tauto.
  - apply Z.leb_gt in E. split.
    + rewrite requantify_ids. exact Hids.
    + apply (requantify_Forall _ (fun q => (1 <= q)%Z)); [lia | exact Hq].
Qed.

Lemma processTransaction_cart (service : TransactionData -> Response) (st : State) :
  cart (next (processTransaction service st)) = cart st
  \/ cart (next (processTransaction service st)) = [].
Proof.
  unfold processTransaction.
  destruct (Js.lt _ _); [left; reflexivity|].
  destruct (service _); [right | left]; reflexivity.
Qed.

(** C4. Every cart mutation keeps the cart invariant: starting from a cart
    with at most one line per product and every quantity at least one, the
    cart set by [addToCart], the cart set by [updateCartItem] (whatever the
    quantity, so both on its resizing and on its removing branch) and the
    cart left by [processTransaction] (which empties it on success) again
    have at most one line per product and every quantity at least one. *)
Theorem cart_mutations_preserve_invariant (st : State) :
  cartInvariant (cart st) ->
  (forall product, cartInvariant (addToCart (cart st) product))
  /\ (forall productId quantity,
         cartInvariant (updateCartItem (cart st) productId quantity))
  /\ (forall service, cartInvariant (cart (next (processTransaction service st))))
  /\ cartInvariant (cart initialState).
Proof.
  intros H. split; [|split; [|split]].
  - intros product. apply addToCart_invariant, H.
  - intros productId quantity. apply updateCartItem_invariant, H.
  - intros service.
    destruct (processTransaction_cart service st) as [-> | ->];
      [apply H | apply cartInvariant_nil].
  - apply cartInvariant_nil.
Qed.

Lemma sampleCart_invariant : cartInvariant sampleCart.
Proof.
  unfold sampleCart.
  do 3 apply addToCart_invariant. apply cartInvariant_nil.
Defined.

Lemma cart_mutations_preserve_invariant_witness :
  cartInvariant (cart sampleState)
  /\ cartInvariant (addToCart (cart sampleState) productB)
  /\ cartInvariant (updateCartItem (cart sampleState) "A" 0).
Proof.
  pose proof (cart_mutations_preserve_invariant sampleState sampleCart_invariant)
    as [Hadd [Hupd _]].
  split; [exact sampleCart_invariant|].
  split; [apply Hadd | apply Hupd].
Defined.

(** ** Price selection *)

(** C2. [getPrice] returns one of the three tier prices of the product:
    the sales price exactly when the customer type is ["sales"], the
    bengkel price exactly when it is ["bengkel"], and the regular price for
    every other identifier, known or not. *)
Theorem getPrice_tier (product : Product.t) (customerType : string) :
  (customerType = "sales"
   /\ getPrice product customerType = Product.price_sales product)
  \/ (customerType = "bengkel"
      /\ getPrice product customerType = Product.price_bengkel product)
  \/ (customerType <> "sales" /\ customerType <> "bengkel"
      /\ getPrice product customerType = Product.price_regular product).
Proof.
  unfold getPrice.
  destruct (String.eqb customerType "sales") eqn:Es.
  - left. apply String.eqb_eq in Es. auto.
  - destruct (String.eqb customerType "bengkel") eqn:Eb.
    + right; left. apply String.eqb_eq in Eb. auto.
    + right; right. apply String.eqb_neq in Es, Eb. auto.
Qed.

(** ** Adding to the cart *)

Lemma addToCart_present (c : Cart) (p : Product.t) :
  In (Product.id p) (productIds c) ->
  addToCart c p = map (requantify (Product.id p) (fun q => q + 1)%Z) c.
Proof.
  intros H. rewrite addToCart_unfold.
  apply existsb_is_line in H. rewrite H. reflexivity.
Qed.

Lemma addToCart_absent (c : Cart) (p : Product.t) :
  ~ In (Product.id p) (productIds c) ->
  addToCart c p = c ++ [ CartItem.make (Product.id p) p 1 ].
Proof.
  intros H. rewrite addToCart_unfold.
  destruct (existsb (is_line (Product.id p)) c) eqn:E; [|reflexivity].
  apply existsb_is_line in E. tauto.
Qed.

Lemma addLine_present (c : Cart) (p : Product.t) (n : Z) :
  (0 < n)%Z ->
  In (Product.id p) (productIds c) ->
  Spec.addLine c p n = map (requantify (Product.id p) (fun q => q + n)%Z) c.
Proof.
  intros Hn H. unfold Spec.addLine.
  apply Z.leb_gt in Hn. rewrite Hn.
  apply existsb_is_line in H. rewrite H. reflexivity.
Qed.

Lemma addLine_absent (c : Cart) (p : Product.t) (n : Z) :
  (0 < n)%Z ->
  ~ In (Product.id p) (productIds c) ->
  Spec.addLine c p n = c ++ [ CartItem.make (Product.id p) p n ].
Proof.
  intros Hn H. unfold Spec.addLine.
  apply Z.leb_gt in Hn. rewrite Hn.
  destruct (existsb (is_line (Product.id p)) c) eqn:E; [|reflexivity].
  apply existsb_is_line in E. tauto.
Qed.

Lemma addToCart_again (c : Cart) (p : Product.t) (n : Z) :
  ~ In (Product.id p) (productIds c) ->
  addToCart (c ++ [ CartItem.make (Product.id p) p n ]) p
  = c ++ [ CartItem.make (Product.id p) p (n + 1) ].
Proof.
  intros H. rewrite addToCart_present.
  - rewrite map_app, requantify_absent by exact H.
    simpl. unfold requantify, is_line. simpl.
    rewrite String.eqb_refl. reflexivity.
  - rewrite productIds_app, in_app_iff. right. left. reflexivity.
Qed.

Lemma addToCart_requantified (c : Cart) (p : Product.t) (f : Z -> Z) :
  In (Product.id p) (productIds c) ->
  addToCart (map (requantify (Product.id p) f) c) p
  = map (requantify (Product.id p) (fun q => f q + 1)%Z) c.
Proof.
  intros H. rewrite addToCart_present by (rewrite requantify_ids; exact H).
  apply requantify_compose.
Qed.

Lemma addToCart_thrice (c : Cart) (p : Product.t) :
  addToCart (addToCart (addToCart c p) p) p = Spec.addLine c p 3.
Proof.
  destruct (in_dec string_dec (Product.id p) (productIds c)) as [Hin | Hout].
  - rewrite addLine_present by (lia || assumption).
    rewrite (addToCart_present c) by assumption.
    rewrite !addToCart_requantified by assumption.
    apply requantify_ext. intros q. lia.
  - rewrite addLine_absent by (lia || assumption).
    rewrite (addToCart_absent c) by assumption.
    rewrite !addToCart_again by assumption. reflexivity.
Qed.

(** C5. [addToCart] raises the quantity of the product's line by one when
    the product is already in the cart (every other line, and the order,
    kept) and appends a new line of quantity one otherwise; it is the
    specification's [addLine] at quantity one, and adding a product three
    times gives the cart that [addLine] gives for quantity three. *)
Theorem addToCart_increments_or_inserts (c : Cart) (product : Product.t) :
  (forall q, lineQuantity c (Product.id product) = Some q ->
             lineQuantity (addToCart c product) (Product.id product) = Some (q + 1)%Z
             /\ productIds (addToCart c product) = productIds c
             /\ forall other, other <> Product.id product ->
                  lineQuantity (addToCart c product) other = lineQuantity c other)
  /\ (lineQuantity c (Product.id product) = None ->
      addToCart c product
      = c ++ [ {| CartItem.product_id := Product.id product;
                  CartItem.product := product;
                  CartItem.quantity := 1 |} ])
  /\ addToCart c product = Spec.addLine c product 1
  /\ addToCart (addToCart (addToCart c product) product) product
     = Spec.addLine c product 3.
Proof.
  assert (Hfind : forall o, lineQuantity c (Product.id product) = o ->
            match o with
            | Some _ => In (Product.id product) (productIds c)
            | None => ~ In (Product.id product) (productIds c)
            end).
  { intros o <-. unfold lineQuantity.
    destruct (find (is_line (Product.id product)) c) eqn:E; simpl.
    - destruct (in_dec string_dec (Product.id product) (productIds c)) as [H|H];
        [exact H|].
      apply find_is_line in H. congruence.
    - apply find_is_line. exact E. }
  split; [|split; [|split]].
  - intros q Hq. pose proof (Hfind _ Hq) as Hin. simpl in Hin.
    rewrite addToCart_present by exact Hin.
    rewrite requantify_lineQuantity, Hq, requantify_ids.
    repeat split. intros other Hne.
    apply requantify_lineQuantity_other. exact Hne.
  - intros Hq. apply addToCart_absent. exact (Hfind _ Hq).
  - destruct (in_dec string_dec (Product.id product) (productIds c)) as [H|H].
    + rewrite addLine_present, addToCart_present by (lia || assumption).
      reflexivity.
    + rewrite addLine_absent, addToCart_absent by (lia || assumption).
      reflexivity.
  - apply addToCart_thrice.
Qed.

Lemma addToCart_increments_or_inserts_witness :
  lineQuantity (addToCart sampleCart productA) "A" = Some 3%Z
  /\ addToCart [] productB = [ CartItem.make "B" productB 1 ].
Proof.
  split.
  - exact (proj1 (proj1 (addToCart_increments_or_inserts sampleCart productA)
                    2%Z eq_refl)).
  - exact (proj1 (proj2 (addToCart_increments_or_inserts [] productB)) eq_refl).
Defined.

(** ** Changing and removing lines *)

(** C6. [updateCartItem] with a quantity of zero or less removes the line
    of the product: what remains is exactly the other lines, none of them
    changed; with a positive quantity every line of the product gets
    exactly that quantity, whatever it was, and no other line changes; and
    removing a product that has no line leaves the cart as it is, so that
    removing twice is removing once. *)
Theorem updateCartItem_sets_or_removes (c : Cart) (productId : string) (quantity : Z) :
  ((quantity <= 0)%Z ->
     lineQuantity (updateCartItem c productId quantity) productId = None
     /\ (forall item, In item (updateCartItem c productId quantity)
                      <-> In item c /\ CartItem.product_id item <> productId)
     /\ (forall other, other <> productId ->
           lineQuantity (updateCartItem c productId quantity) other
           = lineQuantity c other))
  /\ ((0 < quantity)%Z ->
        (forall old, lineQuantity c productId = Some old ->
           lineQuantity (updateCartItem c productId quantity) productId
           = Some quantity)
        /\ (forall item, In item (updateCartItem c productId quantity) ->
              CartItem.product_id item = productId ->
              CartItem.quantity item = quantity)
        /\ productIds (updateCartItem c productId quantity) = productIds c
        /\ (forall other, other <> productId ->
              lineQuantity (updateCartItem c productId quantity) other
              = lineQuantity c other))
  /\ ((quantity <= 0)%Z ->
        (~ In productId (productIds c) ->
           updateCartItem c productId quantity = c)
        /\ updateCartItem (updateCartItem c productId quantity) productId quantity
           = updateCartItem c productId quantity).
Proof.
  rewrite !updateCartItem_unfold.
  split; [|split]; intros Hq.
  - apply Z.leb_le in Hq. rewrite Hq.
    split; [apply without_lineQuantity|].
    split; [apply without_In | intros other; apply without_lineQuantity_other].
  - apply Z.leb_gt in Hq. rewrite Hq.
    split; [|split; [|split]].
    + intros old Hold. rewrite requantify_lineQuantity, Hold. reflexivity.
    + intros item Hin Hid.
      destruct (requantify_quantity _ _ _ _ Hin Hid) as [q0 Hq0]. exact Hq0.
    + apply requantify_ids.
    + intros other. apply requantify_lineQuantity_other.
  - apply Z.leb_le in Hq. rewrite Hq.
    split; [apply without_absent|].
    apply without_absent. rewrite without_ids, filter_In, negb_true_iff.
    intros [_ H]. apply String.eqb_neq in H. congruence.
Qed.

Lemma updateCartItem_sets_or_removes_witness :
  lineQuantity (updateCartItem sampleCart "A" (-5)) "A" = None
  /\ lineQuantity (updateCartItem sampleCart "A" 7) "A" = Some 7%Z
  /\ updateCartItem sampleCart "C" 0 = sampleCart.
Proof.
  assert (Hneg : (-5 <= 0)%Z) by lia.
  assert (Hpos : (0 < 7)%Z) by lia.
  assert (Hzero : (0 <= 0)%Z) by lia.
  split; [|split].
  - exact (proj1 (proj1 (updateCartItem_sets_or_removes sampleCart "A" (-5)) Hneg)).
  - exact (proj1 (proj1 (proj2 (updateCartItem_sets_or_removes sampleCart "A" 7)) Hpos)
             2%Z eq_refl).
  - apply (proj1 (proj2 (proj2 (updateCartItem_sets_or_removes sampleCart "C" 0)) Hzero)).
    simpl. intros [H | [H | []]]; discriminate H.
Defined.

(** C9. [updateCartItem] never inserts: for a product that has no line in
    the cart, a positive quantity leaves the cart exactly as it was. *)
Theorem updateCartItem_absent_unchanged (c : Cart) (productId : string) (quantity : Z) :
  ~ In productId (productIds c) ->
  (0 < quantity)%Z ->
  updateCartItem c productId quantity = c.
Proof.
  intros Habs Hq. rewrite updateCartItem_unfold.
  apply Z.leb_gt in Hq. rewrite Hq.
  apply requantify_absent. exact Habs.
Qed.

Lemma updateCartItem_absent_unchanged_witness :
  updateCartItem sampleCart "C" 4 = sampleCart.
Proof.
  apply updateCartItem_absent_unchanged; [|lia].
  simpl. intros [H | [H | []]]; discriminate H.
Defined.

(** ** Totals *)











(** ** Checkout *)



(** ** Submission *)

(** C7. When [processTransaction] has posted the transaction and the
    service acknowledges it, the cart is emptied and the payment amount is
    reset to the empty field; when the service rejects it, the whole state,
    cart and payment included, is left as it was (as it also is when the
    payment is refused before anything is posted). *)
Theorem processTransaction_clears_only_on_success
        (service : TransactionData -> Response) (st : State) :
  (forall data refreshed,
      In data (posted (processTransaction service st)) ->
      service data = Resolved refreshed ->
      cart (next (processTransaction service st)) = []
      /\ paymentAmount (next (processTransaction service st)) = Js.Empty)
  /\ (forall data detail,
        In data (posted (processTransaction service st)) ->
        service data = Rejected detail ->
        next (processTransaction service st) = st)
  /\ (posted (processTransaction service st) = [] ->
      next (processTransaction service st) = st).
Proof.
  unfold processTransaction.
  destruct (Js.lt _ _).
  - simpl. repeat split; intros; contradiction.
  - cbv zeta.
    destruct (service (transactionData st (Js.parseFloat (paymentAmount st))))
      as [refreshed | detail] eqn:E; simpl.
    + split; [|split].
      * intros; split; reflexivity.
      * intros data detail [<- | []] Hrej. congruence.
      * discriminate.
    + split; [|split].
      * intros data refreshed [<- | []] Hres. congruence.
      * reflexivity.
      * reflexivity.
Qed.

Lemma processTransaction_clears_only_on_success_witness :
  (cart (next (processTransaction acceptingService sampleState)) = []
   /\ paymentAmount (next (processTransaction acceptingService sampleState)) = Js.Empty)
  /\ next (processTransaction refusingService sampleState) = sampleState.
Proof.
  split.
  - apply (proj1 (processTransaction_clears_only_on_success
                    acceptingService sampleState))
      with (data := transactionData sampleState (Js.Num 25000))
           (refreshed := Some [productB]).
    + left. reflexivity.
    + reflexivity.
  - apply (proj1 (proj2 (processTransaction_clears_only_on_success
                           refusingService sampleState)))
      with (data := transactionData sampleState (Js.Num 25000))
           (detail := Some "Insufficient stock").
    + left. reflexivity.
    + reflexivity.
Defined.



(** * Further properties of the component *)

(** ** The buttons of a cart line *)

Lemma with_quantity_same (item : CartItem.t) :
  CartItem.with_quantity item (CartItem.quantity item) = item.
Proof. destruct item; reflexivity. Qed.

Lemma line_unique (c : Cart) (a b : CartItem.t) :
  NoDup (productIds c) -> In a c -> In b c ->
  CartItem.product_id a = CartItem.product_id b -> a = b.
Proof.
  unfold productIds. induction c as [|x c IH]; simpl; intros Hnd Ha Hb Hid.
  - contradiction.
  - inversion Hnd as [|? ? Hx Hc]; subst.
    destruct Ha as [-> | Ha], Hb as [-> | Hb].
    + reflexivity.
    + exfalso. apply Hx. rewrite Hid. apply in_map. exact Hb.
    + exfalso. apply Hx. rewrite <- Hid. apply in_map. exact Ha.
    + apply IH; assumption.
Qed.

Lemma requantify_own_quantity (c : Cart) (item : CartItem.t) :
  NoDup (productIds c) -> In item c ->
  map (requantify (CartItem.product_id item) (fun _ => CartItem.quantity item)) c = c.
Proof.
  intros Hnd Hin. rewrite <- (map_id c) at 2. apply map_ext_in.
  intros x Hx. unfold requantify.
  destruct (is_line (CartItem.product_id item) x) eqn:E; [|reflexivity].
  apply is_line_spec in E.
  rewrite (line_unique c x item Hnd Hx Hin E). apply with_quantity_same.
Qed.

Lemma updateCartItem_positive (c : Cart) (id : string) (q : Z) :
  (0 < q)%Z -> updateCartItem c id q = map (requantify id (fun _ => q)) c.
Proof.
  intros Hq. rewrite updateCartItem_unfold.
  apply Z.leb_gt in Hq. rewrite Hq. reflexivity.
Qed.

Lemma updateCartItem_nonpositive (c : Cart) (id : string) (q : Z) :
  (q <= 0)%Z -> updateCartItem c id q = without id c.
Proof.
  intros Hq. rewrite updateCartItem_unfold.
  apply Z.leb_le in Hq. rewrite Hq. reflexivity.
Qed.

Lemma requantified_line (c : Cart) (item : CartItem.t) (q : Z) :
  In item c ->
  In (CartItem.with_quantity item q)
     (map (requantify (CartItem.product_id item) (fun _ => q)) c).
Proof.
  intros Hin. apply in_map_iff. exists item. split; [|exact Hin].
  unfold requantify, is_line. rewrite String.eqb_refl. reflexivity.
Qed.

Lemma updateCartItem_restore (c : Cart) (item : CartItem.t) (q : Z) :
  cartInvariant c -> In item c -> (0 < q)%Z ->
  updateCartItem (updateCartItem c (CartItem.product_id item) q)
                 (CartItem.product_id item) (CartItem.quantity item)
  = c.
Proof.
  intros [Hnd Hqs] Hin Hq.
  assert (Hpos : (0 < CartItem.quantity item)%Z).
  { rewrite Forall_forall in Hqs. specialize (Hqs item Hin). lia. }
  rewrite (updateCartItem_positive c) by exact Hq.
  rewrite updateCartItem_positive by exact Hpos.
  rewrite requantify_compose.
  apply requantify_own_quantity; assumption.
Qed.

(** X1. In a cart that satisfies the invariant, pressing [+] on a line and
    then [-] on the line as it is then drawn gives back the cart exactly;
    so does [-] followed by [+] when the quantity was at least two. *)
Theorem plus_minus_round_trip (c : Cart) (item : CartItem.t) :
  cartInvariant c ->
  In item c ->
  (In (CartItem.with_quantity item (CartItem.quantity item + 1)) (plusButton c item)
   /\ minusButton (plusButton c item)
                  (CartItem.with_quantity item (CartItem.quantity item + 1))
      = c)
  /\ ((2 <= CartItem.quantity item)%Z ->
      In (CartItem.with_quantity item (CartItem.quantity item - 1)) (minusButton c item)
      /\ plusButton (minusButton c item)
                    (CartItem.with_quantity item (CartItem.quantity item - 1))
         = c).
Proof.
  intros Hinv Hin.
  assert (Hq : (1 <= CartItem.quantity item)%Z).
  { destruct Hinv as [_ H]. rewrite Forall_forall in H. exact (H item Hin). }
  unfold plusButton, minusButton. simpl CartItem.product_id. simpl CartItem.quantity.
  split.
  - split.
    + rewrite updateCartItem_positive by lia. apply requantified_line. exact Hin.
    + replace (CartItem.quantity item + 1 - 1)%Z with (CartItem.quantity item) by lia.
      apply updateCartItem_restore; [assumption | assumption | lia].
  - intros H2. split.
    + rewrite updateCartItem_positive by lia. apply requantified_line. exact Hin.
    + replace (CartItem.quantity item - 1 + 1)%Z with (CartItem.quantity item) by lia.
      apply updateCartItem_restore; [assumption | assumption | lia].
Qed.

Lemma sampleCart_lineA : In (CartItem.make "A" productA 2) sampleCart.
Proof. left. reflexivity. Defined.

Lemma plus_minus_round_trip_witness :
  minusButton (plusButton sampleCart (CartItem.make "A" productA 2))
              (CartItem.make "A" productA 3)
  = sampleCart.
Proof.
  exact (proj2 (proj1 (plus_minus_round_trip sampleCart (CartItem.make "A" productA 2)
                         sampleCart_invariant sampleCart_lineA))).
Defined.

Lemma without_length (id : string) (c : Cart) :
  NoDup (productIds c) -> In id (productIds c) ->
  (List.length (without id c) + 1 = List.length c)%nat.
Proof.
  unfold productIds, without.
  induction c as [|x c IH]; simpl; intros Hnd Hin; [contradiction|].
  inversion Hnd as [|? ? Hx Hc]; subst.
  destruct (is_line id x) eqn:E; simpl.
  - apply is_line_spec in E. subst id.
    fold (without (CartItem.product_id x) c).
    rewrite without_absent by exact Hx. lia.
  - apply is_line_false in E. destruct Hin as [Hin | Hin]; [congruence|].
    rewrite <- IH by assumption. lia.
Qed.

(** X2. In a cart that satisfies the invariant, pressing [-] on a line of
    quantity one removes that line and nothing else: the product has no
    line any more, the cart is one line shorter, and every other line is
    still there. *)
Theorem minus_at_one_removes (c : Cart) (item : CartItem.t) :
  cartInvariant c ->
  In item c ->
  CartItem.quantity item = 1%Z ->
  lineQuantity (minusButton c item) (CartItem.product_id item) = None
  /\ (List.length (minusButton c item) + 1 = List.length c)%nat
  /\ (forall other, In other (minusButton c item) <-> In other c /\ other <> item).
Proof.
  intros [Hnd Hqs] Hin Hone. unfold minusButton.
  rewrite updateCartItem_nonpositive by lia.
  split; [apply without_lineQuantity|].
  split.
  - apply without_length; [exact Hnd|]. apply in_map. exact Hin.
  - intros other. rewrite without_In. split.
    + intros [Ho Hid]. split; [exact Ho | congruence].
    + intros [Ho Hne]. split; [exact Ho|]. intros Hid. apply Hne.
      apply (line_unique c); assumption.
Qed.

Lemma minus_at_one_removes_witness :
  lineQuantity (minusButton sampleCart (CartItem.make "B" productB 1)) "B" = None
  /\ List.length (minusButton sampleCart (CartItem.make "B" productB 1)) = 1%nat.
Proof.
  assert (Hin : In (CartItem.make "B" productB 1) sampleCart)
    by (right; left; reflexivity).
  destruct (minus_at_one_removes sampleCart (CartItem.make "B" productB 1)
              sampleCart_invariant Hin eq_refl) as [H1 [H2 _]].
  split; [exact H1 | reflexivity].
Defined.

(** ** Adding, then removing or adding again *)

Lemma without_new_line (c : Cart) (p : Product.t) (q : Z) :
  ~ In (Product.id p) (productIds c) ->
  without (Product.id p) (c ++ [ CartItem.make (Product.id p) p q ]) = c.
Proof.
  intros Habs. unfold without. rewrite filter_app.
  fold (without (Product.id p) c). rewrite without_absent by exact Habs.
  simpl. unfold is_line. simpl. rewrite String.eqb_refl. simpl.
  apply app_nil_r.
Qed.

(** X3. Clicking a product that is not in the cart and then removing it
    (setting its quantity to zero or less) gives back the cart exactly;
    and in a cart that satisfies the invariant, clicking a product that
    has a line is the same as pressing that line's [+] button. *)
Theorem addToCart_undo_and_plus (c : Cart) (product : Product.t) :
  (forall quantity,
      ~ In (Product.id product) (productIds c) ->
      (quantity <= 0)%Z ->
      updateCartItem (addToCart c product) (Product.id product) quantity = c)
  /\ (forall item,
        cartInvariant c ->
        In item c ->
        CartItem.product_id item = Product.id product ->
        addToCart c product = plusButton c item).
Proof.
  split.
  - intros quantity Habs Hq.
    rewrite addToCart_absent by exact Habs.
    rewrite updateCartItem_nonpositive by exact Hq.
    apply without_new_line. exact Habs.
  - intros item [Hnd Hqs] Hin Hid.
    assert (Hq : (1 <= CartItem.quantity item)%Z).
    { rewrite Forall_forall in Hqs. exact (Hqs item Hin). }
    unfold plusButton. rewrite updateCartItem_positive by lia.
    rewrite addToCart_present
      by (rewrite <- Hid; apply in_map; exact Hin).
    rewrite <- Hid. apply map_ext_in. intros x Hx. unfold requantify.
    destruct (is_line (CartItem.product_id item) x) eqn:E; [|reflexivity].
    apply is_line_spec in E.
    rewrite (line_unique c x item Hnd Hx Hin E). reflexivity.
Qed.

Lemma addToCart_undo_and_plus_witness :
  updateCartItem (addToCart [CartItem.make "A" productA 2] productB) "B" 0
  = [CartItem.make "A" productA 2]
  /\ addToCart sampleCart productA = plusButton sampleCart (CartItem.make "A" productA 2).
Proof.
  split.
  - apply (proj1 (addToCart_undo_and_plus [CartItem.make "A" productA 2] productB) 0%Z);
      [|lia].
    simpl. intros [H | []]. discriminate H.
  - apply (proj2 (addToCart_undo_and_plus sampleCart productA)
             (CartItem.make "A" productA 2)
             sampleCart_invariant sampleCart_lineA eq_refl).
Defined.

(** ** Looking a quantity up after a click *)

Lemma find_app_lines (id : string) (c1 c2 : Cart) :
  find (is_line id) (c1 ++ c2)
  = match find (is_line id) c1 with
    | Some item => Some item
    | None => find (is_line id) c2
    end.
Proof.
  induction c1 as [|x c1 IH]; simpl; [reflexivity|].
  destruct (is_line id x); [reflexivity | exact IH].
Qed.

Lemma lineQuantity_absent (id : string) (c : Cart) :
  ~ In id (productIds c) -> lineQuantity c id = None.
Proof.
  intros H. unfold lineQuantity.
  apply find_is_line in H. rewrite H. reflexivity.
Qed.

Lemma lineQuantity_present (id : string) (c : Cart) :
  In id (productIds c) -> exists q, lineQuantity c id = Some q.
Proof.
  intros H. unfold lineQuantity.
  destruct (find (is_line id) c) as [item|] eqn:E.
  - exists (CartItem.quantity item). reflexivity.
  - apply find_is_line in E. contradiction.
Qed.

Lemma lineQuantity_addToCart (c : Cart) (p : Product.t) (id : string) :
  lineQuantity (addToCart c p) id
  = if String.eqb id (Product.id p)
    then Some match lineQuantity c id with
              | Some q => (q + 1)%Z
              | None => 1%Z
              end
    else lineQuantity c id.
Proof.
  destruct (in_dec string_dec (Product.id p) (productIds c)) as [Hin | Habs].
  - rewrite addToCart_present by exact Hin.
    destruct (String.eqb id (Product.id p)) eqn:E.
    + apply String.eqb_eq in E. subst id.
      rewrite requantify_lineQuantity.
      destruct (lineQuantity_present _ _ Hin) as [q ->]. reflexivity.
    + apply String.eqb_neq in E.
      apply requantify_lineQuantity_other. exact E.
  - rewrite addToCart_absent by exact Habs.
    unfold lineQuantity at 1. rewrite find_app_lines. simpl.
    unfold is_line at 2. simpl. rewrite String.eqb_sym.
    destruct (String.eqb id (Product.id p)) eqn:E.
    + apply String.eqb_eq in E. subst id.
      rewrite (lineQuantity_absent _ _ Habs).
      apply find_is_line in Habs. rewrite Habs. reflexivity.
    + unfold lineQuantity.
      destruct (find (is_line id) c); reflexivity.
Qed.

(** X4. After a click on a product, the quantity recorded for that
    product is one more than before, or one if it had no line, and the
    quantity recorded for every other product is what it was; so the
    quantities in the cart do not depend on the order in which two
    products are clicked. *)
Theorem addToCart_lookup (c : Cart) (p p' : Product.t) (productId : string) :
  lineQuantity (addToCart c p) productId
  = (if String.eqb productId (Product.id p)
     then Some match lineQuantity c productId with
               | Some q => (q + 1)%Z
               | None => 1%Z
               end
     else lineQuantity c productId)
  /\ lineQuantity (addToCart (addToCart c p) p') productId
     = lineQuantity (addToCart (addToCart c p') p) productId.
Proof.
  split; [apply lineQuantity_addToCart|].
  rewrite !lineQuantity_addToCart.
  destruct (String.eqb productId (Product.id p)),
           (String.eqb productId (Product.id p'));
    reflexivity.
Qed.

(** ** The product carried by a line *)

Lemma requantify_product (id : string) (f : Z -> Z) (item : CartItem.t) :
  CartItem.product (requantify id f item) = CartItem.product item.
Proof. unfold requantify. destruct (is_line id item); reflexivity. Qed.

Lemma requantify_coherent (id : string) (f : Z -> Z) (c : Cart) :
  linesCoherent c -> linesCoherent (map (requantify id f) c).
Proof.
  unfold linesCoherent. intros H. rewrite Forall_map. revert H.
  apply Forall_impl. intros item Hc.
  rewrite requantify_id, requantify_product. exact Hc.
Qed.

Lemma without_coherent (id : string) (c : Cart) :
  linesCoherent c -> linesCoherent (without id c).
Proof.
  unfold linesCoherent. rewrite !Forall_forall. intros H item Hin.
  apply without_In in Hin. apply H. tauto.
Qed.

(** X5. Every mutation keeps each line attached to its own product: if
    every line's [product_id] is the identifier of the product it carries,
    the same holds of the cart set by [addToCart], by [updateCartItem] and
    left by [processTransaction]; it holds of the initial cart, so the
    identifiers sent to the service are those of the products that were
    priced. *)
Theorem mutations_keep_lines_coherent (st : State) :
  linesCoherent (cart st) ->
  (forall product, linesCoherent (addToCart (cart st) product))
  /\ (forall productId quantity,
         linesCoherent (updateCartItem (cart st) productId quantity))
  /\ (forall service, linesCoherent (cart (next (processTransaction service st))))
  /\ (forall amount,
         map TransactionItem.product_id (items (transactionData st amount))
         = map (fun item => Product.id (CartItem.product item)) (cart st)).
Proof.
  intros H. split; [|split; [|split]].
  - intros product. rewrite addToCart_unfold.
    destruct (existsb _ _).
    + apply requantify_coherent. exact H.
    + apply Forall_app. split; [exact H|]. repeat constructor.
  - intros productId quantity. rewrite updateCartItem_unfold.
    destruct (quantity <=? 0)%Z.
    + apply without_coherent. exact H.
    + apply requantify_coherent. exact H.
  - intros service.
    destruct (processTransaction_cart service st) as [-> | ->];
      [exact H | constructor].
  - intros amount. unfold transactionData. simpl. rewrite map_map. simpl.
    apply map_ext_in. intros item Hin.
    unfold linesCoherent in H. rewrite Forall_forall in H. exact (H item Hin).
Qed.

Lemma sampleCart_coherent : linesCoherent sampleCart.
Proof. repeat constructor. Defined.

Lemma mutations_keep_lines_coherent_witness :
  linesCoherent (addToCart (cart sampleState) productB)
  /\ linesCoherent (updateCartItem (cart sampleState) "A" 5).
Proof.
  destruct (mutations_keep_lines_coherent sampleState sampleCart_coherent)
    as [Hadd [Hupd _]].
  split; [apply Hadd | apply Hupd].
Defined.

(** X6. A line keeps the product record it was created with: changing a
    quantity leaves the list of carried products as it was, and a click on
    a product that already has a line does too, whatever record is passed
    (a record with the same identifier and other prices does not replace
    the one in the cart); only a click on a product without a line adds
    one, the record clicked, at the end. *)
Theorem lines_keep_their_product (c : Cart) (product : Product.t) :
  (forall productId quantity,
      (0 < quantity)%Z ->
      map CartItem.product (updateCartItem c productId quantity)
      = map CartItem.product c)
  /\ (In (Product.id product) (productIds c) ->
      map CartItem.product (addToCart c product) = map CartItem.product c)
  /\ (~ In (Product.id product) (productIds c) ->
      map CartItem.product (addToCart c product) = map CartItem.product c ++ [product]).
Proof.
  split; [|split].
  - intros productId quantity Hq. rewrite updateCartItem_positive by exact Hq.
    rewrite map_map. apply map_ext. intros item. apply requantify_product.
  - intros Hin. rewrite addToCart_present by exact Hin.
    rewrite map_map. apply map_ext. intros item. apply requantify_product.
  - intros Habs. rewrite addToCart_absent by exact Habs.
    rewrite map_app. reflexivity.
Qed.

Lemma lines_keep_their_product_witness :
  map CartItem.product (updateCartItem sampleCart "A" 9) = [productA; productB]
  /\ map CartItem.product (addToCart sampleCart productA) = [productA; productB]
  /\ map CartItem.product (addToCart [] productB) = [productB].
Proof.
  assert (Hpos : (0 < 9)%Z) by lia.
  split; [|split].
  - exact (proj1 (lines_keep_their_product sampleCart productA) "A" 9%Z Hpos).
  - apply (proj1 (proj2 (lines_keep_their_product sampleCart productA))).
    left. reflexivity.
  - apply (proj2 (proj2 (lines_keep_their_product [] productB))).
    intros [].
Defined.

(** ** The change line, the button and the guard *)





(** ** The discount row *)



(** ** The search box *)

Section Search.

Import JsString.

Lemma prefix_refl (s : string) : String.prefix s s = true.
Proof.
  induction s as [|a s IH]; simpl; [reflexivity|].
  destruct (ascii_dec a a) as [_ | H]; [exact IH | congruence].
Qed.

Lemma prefix_append (t u : string) :
  forall s, String.prefix (t ++ u)%string s = true -> String.prefix t s = true.
Proof.
  induction t as [|a t IH]; intros s H.
  - destruct s; reflexivity.
  - destruct s as [|b s]; simpl in *; [discriminate H|].
    destruct (ascii_dec a b); [apply IH; exact H | discriminate H].
Qed.

Lemma includes_empty (s : string) : includes s EmptyString = true.
Proof. destruct s; reflexivity. Qed.

Lemma includes_refl (s : string) : includes s s = true.
Proof.
  destruct s as [|a s]; [reflexivity|].
  change (includes (String a s) (String a s))
    with (String.prefix (String a s) (String a s) || includes s (String a s)).
  rewrite prefix_refl. reflexivity.
Qed.

Lemma includes_append (t u : string) :
  forall s, includes s (t ++ u)%string = true -> includes s t = true.
Proof.
  induction s as [|a s IH]; intros H.
  - change (String.prefix (t ++ u)%string EmptyString || false = true) in H.
    change (String.prefix t EmptyString || false = true).
    rewrite orb_false_r in *. apply prefix_append with u. exact H.
  - change (String.prefix (t ++ u)%string (String a s)
            || includes s (t ++ u)%string = true) in H.
    change (String.prefix t (String a s) || includes s t = true).
    apply orb_true_iff in H. apply orb_true_iff.
    destruct H as [H | H]; [left; apply prefix_append with u | right; apply IH];
      exact H.
Qed.

Lemma toLowerCase_append (t u : string) :
  toLowerCase (t ++ u)%string = (toLowerCase t ++ toLowerCase u)%string.
Proof.
  induction t as [|a t IH]; simpl; [reflexivity|]. rewrite IH. reflexivity.
Qed.

End Search.

(** X12. The product search: with an empty search box every product is
    offered, in catalog order; a product whose name or SKU is what was
    typed, letter case apart, is always offered; and typing further
    characters never brings back a product that the shorter term had
    excluded. *)
Theorem search_narrows (st : State) :
  (searchTerm st = EmptyString -> filteredProducts st = products st)
  /\ (forall p, In p (products st) ->
        JsString.toLowerCase (Product.name p) = JsString.toLowerCase (searchTerm st)
        \/ JsString.toLowerCase (Product.sku p) = JsString.toLowerCase (searchTerm st) ->
        In p (filteredProducts st))
  /\ (forall term more p,
        In p (searchProducts (term ++ more)%string (products st)) ->
        In p (searchProducts term (products st))).
Proof.
  unfold filteredProducts, searchProducts. split; [|split].
  - intros ->. simpl JsString.toLowerCase.
    induction (products st) as [|p ps IH]; simpl; [reflexivity|].
    rewrite includes_empty. simpl. rewrite IH. reflexivity.
  - intros p Hin Hsame. apply filter_In. split; [exact Hin|].
    apply orb_true_iff.
    destruct Hsame as [<- | <-]; [left | right]; apply includes_refl.
  - intros term more p. rewrite !filter_In, !orb_true_iff.
    rewrite toLowerCase_append.
    intros [Hin [H | H]]; (split; [exact Hin|]);
      [left | right]; apply includes_append in H; exact H.
Qed.

Lemma search_narrows_witness :
  In productB (filteredProducts searchState)
  /\ filteredProducts sampleState = [productA; productB].
Proof.
  split.
  - apply (proj1 (proj2 (search_narrows searchState)) productB).
    + right. left. reflexivity.
    + left. reflexivity.
  - exact (proj1 (search_narrows sampleState) eq_refl).
Defined.

(** ** Reports *)

Section ReportDates.

Import JsString.

Variable sep : ascii.

Lemma split_nonempty (s : string) : split sep s <> [].
Proof.
  destruct s as [|c s]; simpl; [discriminate|].
  destruct (Ascii.eqb c sep); [discriminate|].
  destruct (split sep s); discriminate.
Qed.

Lemma split_free (s : string) : free sep s = true -> split sep s = [s].
Proof.
  induction s as [|c s IH]; simpl; [reflexivity|].
  destruct (Ascii.eqb c sep); simpl; [discriminate|].
  intros H. rewrite (IH H). reflexivity.
Qed.

Lemma split_append (y t : string) :
  free sep y = true ->
  split sep (y ++ String sep t)%string = y :: split sep t.
Proof.
  induction y as [|c y IH]; simpl.
  - intros _. rewrite Ascii.eqb_refl. reflexivity.
  - destruct (Ascii.eqb c sep); simpl; [discriminate|].
    intros H. rewrite (IH H). reflexivity.
Qed.

Lemma slice0_append (v w : string) :
  slice0 (String.length v) (v ++ w)%string = v.
Proof.
  unfold slice0. induction v as [|c v IH]; simpl.
  - destruct w; reflexivity.
  - rewrite IH. reflexivity.
Qed.

End ReportDates.

Lemma append_assoc (a b c : string) :
  ((a ++ b) ++ c = a ++ b ++ c)%string.
Proof.
  induction a as [|x a IH]; simpl; [reflexivity|]. rewrite IH. reflexivity.
Qed.

Lemma params_monthly (y m rest : string) :
  JsString.free "-" y = true ->
  JsString.free "-" m = true ->
  rest = EmptyString \/ (exists r, rest = String "-" r) ->
  Reports.params "monthly" (y ++ "-" ++ m ++ rest)%string
  = ("?month=" ++ y ++ "-" ++ m)%string.
Proof.
  intros Hy Hm Hrest. unfold Reports.params.
  change (String.eqb "monthly" "daily") with false.
  change (String.eqb "monthly" "weekly") with false.
  change (String.eqb "monthly" "monthly") with true.
  cbv iota zeta.
  change ("-" ++ m ++ rest)%string with (String "-" (m ++ rest)%string).
  rewrite split_append by exact Hy.
  destruct Hrest as [-> | [r ->]].
  - assert (E : (m ++ EmptyString)%string = m).
    { clear. induction m as [|c m IH]; simpl; [reflexivity|].
      rewrite IH. reflexivity. }
    rewrite E, split_free by exact Hm. reflexivity.
  - rewrite split_append by exact Hm. reflexivity.
Qed.

(** X13. A monthly report is asked for the year and month of the report
    date: for a date [y-m] or [y-m-...] the address requested is
    [API/reports/monthly?month=y-m]; a report date without any dash has
    no month part and the request asks for month [undefined]. Whatever the
    answer, the screen leaves the loading state, and when the request
    fails the alert is shown and the report on screen stays. *)
Theorem fetchReport_monthly (Data : Type) (api : string)
        (service : string -> option Data) (st : Reports.State Data) :
  Reports.reportType st = "monthly" ->
  (forall y m rest,
      Reports.reportDate st = (y ++ "-" ++ m ++ rest)%string ->
      JsString.free "-" y = true ->
      JsString.free "-" m = true ->
      rest = EmptyString \/ (exists r, rest = String "-" r) ->
      fst (fst (Reports.fetchReport api service st))
      = (api ++ "/reports/monthly?month=" ++ y ++ "-" ++ m)%string)
  /\ (JsString.free "-" (Reports.reportDate st) = true ->
      fst (fst (Reports.fetchReport api service st))
      = (api ++ "/reports/monthly?month=" ++ Reports.reportDate st ++ "-undefined")%string)
  /\ Reports.loading (snd (Reports.fetchReport api service st)) = false
  /\ (service (fst (fst (Reports.fetchReport api service st))) = None ->
      snd (fst (Reports.fetchReport api service st)) = true
      /\ Reports.reportData (snd (Reports.fetchReport api service st))
         = Reports.reportData st).
Proof.
  intros Htype.
  assert (Haddr : fst (fst (Reports.fetchReport api service st))
                  = Reports.url api (Reports.reportType st) (Reports.reportDate st)).
  { unfold Reports.fetchReport. destruct (service _); reflexivity. }
  split; [|split; [|split]].
  - intros y m rest Hdate Hy Hm Hrest.
    rewrite Haddr, Htype, Hdate. unfold Reports.url.
    rewrite params_monthly by assumption. reflexivity.
  - intros Hfree. rewrite Haddr, Htype. unfold Reports.url, Reports.params.
    change (String.eqb "monthly" "daily") with false.
    change (String.eqb "monthly" "weekly") with false.
    change (String.eqb "monthly" "monthly") with true.
    cbv iota zeta. rewrite split_free by exact Hfree. reflexivity.
  - unfold Reports.fetchReport. destruct (service _); reflexivity.
  - rewrite Haddr. unfold Reports.fetchReport. cbv zeta.
    destruct (service _); [discriminate|]. intros _. split; reflexivity.
Qed.

Lemma fetchReport_monthly_witness :
  fst (fst (Reports.fetchReport "http://kasir/api" reportsDown monthlyReports))
  = "http://kasir/api/reports/monthly?month=2024-03"
  /\ Reports.reportData (snd (Reports.fetchReport "http://kasir/api" reportsDown
                                                  monthlyReports))
     = Some 7%nat.
Proof.
  pose proof (fetchReport_monthly nat "http://kasir/api" reportsDown monthlyReports
                eq_refl) as [Hurl [_ [_ Hfail]]].
  split.
  - apply (Hurl "2024" "03" "-15"); try reflexivity.
    right. exists "15". reflexivity.
  - apply Hfail. reflexivity.
Defined.

(** X14. The date field of the report screen shows what was picked: in
    daily and weekly mode the picked date is stored and shown as it is; in
    monthly mode a picked month of seven characters is shown again, and
    the next monthly request asks for exactly the month picked. *)
Theorem report_date_round_trip (Data : Type) (st : Reports.State Data) (value : string) :
  (Reports.reportType st <> "monthly" ->
   Reports.reportDate (Reports.onDateChange st value) = value
   /\ Reports.inputValue (Reports.onDateChange st value) = value)
  /\ (Reports.reportType st = "monthly" ->
      (String.length value = 7%nat ->
       Reports.inputValue (Reports.onDateChange st value) = value)
      /\ (forall y m,
            value = (y ++ "-" ++ m)%string ->
            JsString.free "-" y = true ->
            JsString.free "-" m = true ->
            Reports.params (Reports.reportType (Reports.onDateChange st value))
                           (Reports.reportDate (Reports.onDateChange st value))
            = ("?month=" ++ value)%string)).
Proof.
  unfold Reports.inputValue, Reports.onDateChange. simpl.
  split.
  - intros Hne. apply String.eqb_neq in Hne. rewrite Hne. split; reflexivity.
  - intros Hm. rewrite Hm.
    change (String.eqb "monthly" "monthly") with true. cbv iota.
    split.
    + intros Hlen. rewrite <- Hlen. apply slice0_append.
    + intros y m -> Hy Hmo.
      rewrite !append_assoc.
      change ("-" ++ m ++ "-01")%string with ("-" ++ m ++ String "-" "01")%string.
      apply params_monthly; [assumption | assumption |].
      right. exists "01". reflexivity.
Qed.

Lemma report_date_round_trip_witness :
  Reports.inputValue (Reports.onDateChange monthlyReports "2025-11") = "2025-11"
  /\ Reports.params "monthly"
                    (Reports.reportDate (Reports.onDateChange monthlyReports "2025-11"))
     = "?month=2025-11".
Proof.
  pose proof (proj2 (report_date_round_trip nat monthlyReports "2025-11") eq_refl)
    as [Hshow Hask].
  split.
  - apply Hshow. reflexivity.
  - apply (Hask "2025" "11"); reflexivity.
Defined.

(** ** Logging in and out *)

Lemma or_default_nonempty (v : option string) (d : string) :
  d <> EmptyString -> Js.or_default v d <> EmptyString.
Proof.
  intros Hd. destruct v as [[|c s]|]; simpl; [exact Hd | discriminate | exact Hd].
Qed.

Lemma login_granted (service : string -> string -> Auth.Response) (w : Auth.World)
      (username password token : string) (u : Auth.User) :
  service username password = Auth.Granted token u ->
  Auth.login service w username password
  = ({| Auth.user := Some u; Auth.token := Some token;
        Auth.storedToken := Some token;
        Auth.authorization := Some (Auth.bearer token) |}, Auth.Succeeded).
Proof. intros H. unfold Auth.login. rewrite H. reflexivity. Qed.

Lemma login_denied (service : string -> string -> Auth.Response) (w : Auth.World)
      (username password : string) (detail : option string) :
  service username password = Auth.Denied detail ->
  Auth.login service w username password
  = (w, Auth.Failed (Js.or_default detail "Login gagal")).
Proof. intros H. unfold Auth.login. rewrite H. reflexivity. Qed.

(** X15. Submitting the login form: the form always leaves the loading
    state; the error line is drawn exactly when the service denied the
    login, in which case nothing of the session changes; when the service
    granted it, the token is kept in the state cell and in local storage,
    the [Authorization] header is [Bearer] followed by the token, the user
    is recorded and, the token not being empty, the application is shown
    instead of the login page. *)
Theorem handleSubmit_outcome (service : string -> string -> Auth.Response)
        (w : Auth.World) (f : Auth.Form) :
  Auth.formLoading (snd (Auth.handleSubmit service w f)) = false
  /\ (Auth.errorShown (snd (Auth.handleSubmit service w f)) = true
      <-> exists detail,
            service (Auth.formUsername f) (Auth.formPassword f) = Auth.Denied detail)
  /\ (forall detail,
        service (Auth.formUsername f) (Auth.formPassword f) = Auth.Denied detail ->
        fst (Auth.handleSubmit service w f) = w)
  /\ (forall token u,
        service (Auth.formUsername f) (Auth.formPassword f) = Auth.Granted token u ->
        Auth.token (fst (Auth.handleSubmit service w f)) = Some token
        /\ Auth.storedToken (fst (Auth.handleSubmit service w f)) = Some token
        /\ Auth.authorization (fst (Auth.handleSubmit service w f))
           = Some ("Bearer " ++ token)%string
        /\ Auth.user (fst (Auth.handleSubmit service w f)) = Some u
        /\ (token <> EmptyString ->
            Auth.authWrapper (fst (Auth.handleSubmit service w f)) = Auth.MainApp)).
Proof.
  unfold Auth.handleSubmit.
  destruct (service (Auth.formUsername f) (Auth.formPassword f))
    as [token u | detail] eqn:E.
  - rewrite (login_granted service w _ _ token u E). simpl.
    split; [reflexivity|]. split; [|split].
    + unfold Auth.errorShown. simpl.
      split; [discriminate | intros [d Hd]; discriminate Hd].
    + intros d Hd. discriminate Hd.
    + intros token' u' H. injection H as <- <-.
      repeat split. intros Hne. unfold Auth.authWrapper, Auth.hasToken. simpl.
      destruct token; [congruence | reflexivity].
  - rewrite (login_denied service w _ _ detail E). simpl.
    split; [reflexivity|]. split; [|split].
    + unfold Auth.errorShown. simpl. split; [eauto|]. intros _.
      pose proof (or_default_nonempty detail "Login gagal") as Hne.
      destruct (Js.or_default detail "Login gagal");
        [exfalso; apply Hne; [discriminate | reflexivity] | reflexivity].
    + reflexivity.
    + intros token u H. discriminate H.
Qed.

Lemma handleSubmit_outcome_witness :
  Auth.authWrapper (fst (Auth.handleSubmit sampleLogin loggedOut adminForm)) = Auth.MainApp
  /\ fst (Auth.handleSubmit sampleLogin loggedOut wrongForm) = loggedOut
  /\ Auth.errorShown (snd (Auth.handleSubmit sampleLogin loggedOut wrongForm)) = true.
Proof.
  split; [|split].
  - apply (proj2 (proj2 (proj2 (handleSubmit_outcome sampleLogin loggedOut adminForm)))
             "t0k3n" (Auth.mkUser "admin") eq_refl).
    discriminate.
  - exact (proj1 (proj2 (proj2 (handleSubmit_outcome sampleLogin loggedOut wrongForm)))
             (Some "Incorrect username or password") eq_refl).
  - apply (proj1 (proj2 (handleSubmit_outcome sampleLogin loggedOut wrongForm))).
    exists (Some "Incorrect username or password"). reflexivity.
Defined.

(** X16. The three copies of the token stay in agreement: if local storage
    holds the token of the state cell and the [Authorization] header is
    the [Bearer] form of it (or absent when there is none), the same is
    true after [login], whether granted or denied, and after [logout];
    and after [logout] the login page is shown, whatever came before. *)
Theorem tokens_stay_in_agreement (service : string -> string -> Auth.Response)
        (w : Auth.World) (username password : string) :
  Auth.tokensAgree w ->
  Auth.tokensAgree (fst (Auth.login service w username password))
  /\ Auth.tokensAgree (Auth.logout w)
  /\ Auth.tokensAgree (Auth.logout (fst (Auth.login service w username password)))
  /\ Auth.authWrapper (Auth.logout (fst (Auth.login service w username password)))
     = Auth.Login.
Proof.
  intros Hagree. split; [|repeat split].
  unfold Auth.login. destruct (service username password).
  - split; reflexivity.
  - exact Hagree.
Qed.

Lemma tokens_stay_in_agreement_witness :
  Auth.tokensAgree (fst (Auth.login sampleLogin loggedOut "admin" "admin123")).
Proof.
  apply (tokens_stay_in_agreement sampleLogin loggedOut "admin" "admin123").
  split; reflexivity.
Defined.

(** * The computed amounts in binary64 *)

(** ** Signs and comparisons *)

Section Binary64Facts.

Import Binary64.

Lemma binary_round_aux_sign (s : bool) (m e : Z) (l : location) :
  isNegative (binary_round_aux prec emax s m e l) = true -> s = true.
Proof.
  unfold binary_round_aux.
  destruct (shr_fexp prec emax m e l) as [mrs' e'].
  destruct (shr_fexp prec emax _ e' loc_Exact) as [mrs'' e''].
  destruct (shr_m mrs''); [| destruct (Z.leb e'' (Z.sub emax prec)) |];
    destruct s; simpl; intros H; (reflexivity || discriminate H).
Qed.

Lemma binary_normalize_sign (z e : Z) (szero : bool) :
  isNegative (binary_normalize prec emax z e szero) = true -> (z < 0)%Z.
Proof.
  destruct z as [|p|p]; simpl.
  - discriminate.
  - unfold binary_round.
    destruct (shl_align p e _) as [mz ez].
    intros H. apply binary_round_aux_sign in H. discriminate H.
  - intros _. reflexivity.
Qed.

Lemma sub_negative (x y : number) :
  isNegative (sub x y) = true -> ltb x y = true.
Proof.
  unfold sub, ltb.
  destruct x as [sx | sx | | sx mx ex], y as [sy | sy | | sy my ey];
    try (simpl; discriminate);
    try (destruct sx; simpl; intros H; (reflexivity || discriminate H));
    try (destruct sy; simpl; intros H; (reflexivity || discriminate H));
    try (destruct sx, sy; simpl; intros H; (reflexivity || discriminate H)).
  unfold SFsub, compare. intros H. apply binary_normalize_sign in H.
  unfold mantissaAt.
  rewrite (proj2 (Z.compare_lt_iff _ _)); [reflexivity | lia].
Qed.

Lemma sub_not_negative (x y : number) :
  ltb x y = false -> isNegative (sub x y) = false.
Proof.
  intros H. destruct (isNegative (sub x y)) eqn:E; [|reflexivity].
  apply sub_negative in E. congruence.
Qed.

Lemma ltb_false_iff (x y : number) :
  ltb x y = false <-> geb x y = true \/ compare x y = None.
Proof.
  unfold ltb, geb. destruct (compare x y) as [[ | | ]|].
  - split; [left; reflexivity | reflexivity].
  - split; [discriminate | intros [H | H]; discriminate H].
  - split; [left; reflexivity | reflexivity].
  - split; [right; reflexivity | reflexivity].
Qed.

Lemma iter_xO_pow (d m : positive) :
  Zpos (Pos.iter xO m d) = (Zpos m * 2 ^ Zpos d)%Z.
Proof.
  induction d as [|d IH] using Pos.peano_ind.
  - simpl. lia.
  - rewrite Pos.iter_succ, Pos2Z.inj_succ, Z.pow_succ_r by lia.
    rewrite Pos2Z.inj_xO, IH. ring.
Qed.

Lemma shl_align_value (m : positive) (e ez : Z) :
  (ez <= e)%Z ->
  Zpos (fst (shl_align m e ez)) = (Zpos m * 2 ^ (e - ez))%Z.
Proof.
  intros Hle. unfold shl_align.
  destruct (Z.sub ez e) as [|d|d] eqn:E.
  - replace (e - ez)%Z with 0%Z by lia. simpl. lia.
  - lia.
  - replace (e - ez)%Z with (Zpos d) by lia. simpl fst. apply iter_xO_pow.
Qed.

Lemma digits2_pos_bounds (m : positive) :
  (2 ^ (Zpos (digits2_pos m) - 1) <= Zpos m < 2 ^ Zpos (digits2_pos m))%Z.
Proof.
  induction m as [m IH | m IH |]; simpl digits2_pos.
  - rewrite Pos2Z.inj_succ, Z.pow_succ_r by lia.
    replace (Z.succ (Zpos (digits2_pos m)) - 1)%Z
      with (Z.succ (Zpos (digits2_pos m) - 1)) by lia.
    rewrite Z.pow_succ_r by lia. lia.
  - rewrite Pos2Z.inj_succ, Z.pow_succ_r by lia.
    replace (Z.succ (Zpos (digits2_pos m)) - 1)%Z
      with (Z.succ (Zpos (digits2_pos m) - 1)) by lia.
    rewrite Z.pow_succ_r by lia. lia.
  - simpl. lia.
Qed.

Lemma bounded_digits (m : positive) (e : Z) :
  bounded prec emax m e = true ->
  (Zpos (digits2_pos m) <= 53)%Z
  /\ ((-1074 <= e)%Z)
  /\ ((-1074 < e)%Z -> Zpos (digits2_pos m) = 53%Z).
Proof.
  unfold bounded, canonical_mantissa, fexp, emin, prec, emax.
  intros H. apply andb_true_iff in H. destruct H as [H _].
  apply Z.eqb_eq in H. lia.
Qed.

Lemma valid_lt (m1 m2 : positive) (e1 e2 : Z) :
  bounded prec emax m1 e1 = true ->
  bounded prec emax m2 e2 = true ->
  (e1 < e2)%Z ->
  (Zpos m1 < Zpos m2 * 2 ^ (e2 - e1))%Z.
Proof.
  intros H1 H2 Hlt.
  destruct (bounded_digits m1 e1 H1) as [Hd1 [Hm1 _]].
  destruct (bounded_digits m2 e2 H2) as [_ [_ Hd2]].
  pose proof (digits2_pos_bounds m1) as [_ Hu].
  pose proof (digits2_pos_bounds m2) as [Hl _].
  rewrite Hd2 in Hl by lia.
  assert (Zpos m1 < 2 ^ 53)%Z.
  { eapply Z.lt_le_trans; [exact Hu|]. apply Z.pow_le_mono_r; lia. }
  assert (2 ^ 1 <= 2 ^ (e2 - e1))%Z by (apply Z.pow_le_mono_r; lia).
  change (2 ^ (53 - 1))%Z with 4503599627370496%Z in Hl.
  change (2 ^ 53)%Z with 9007199254740992%Z in H.
  change (2 ^ 1)%Z with 2%Z in H0. nia.
Qed.

(** On numbers in canonical form, which is what the operations produce,
    [compare] is the comparison of [SpecFloat]. *)
Lemma compare_valid (x y : number) :
  valid_binary prec emax x = true ->
  valid_binary prec emax y = true ->
  compare x y = SFcompare x y.
Proof.
  destruct x as [sx | sx | | sx mx ex], y as [sy | sy | | sy my ey];
    try reflexivity;
    try (destruct sx; reflexivity);
    try (destruct sy; reflexivity);
    try (destruct sx, sy; reflexivity).
  simpl valid_binary. intros Hx Hy.
  unfold compare, SFcompare, mantissaAt, cond_Zopp. f_equal.
  assert (Hpx : (0 < Zpos mx)%Z) by lia.
  assert (Hpy : (0 < Zpos my)%Z) by lia.
  destruct (Z.compare_spec ex ey) as [Heq | Hlt | Hgt].
  - subst ey. rewrite Z.min_id.
    rewrite !shl_align_value by lia. rewrite Z.sub_diag, !Z.mul_1_r.
    destruct sx, sy; try reflexivity.
  - rewrite Z.min_l by lia.
    rewrite !shl_align_value by lia. rewrite Z.sub_diag, Z.mul_1_r.
    pose proof (valid_lt mx my ex ey Hx Hy Hlt) as H.
    destruct sx, sy.
    + apply Z.compare_gt_iff. lia.
    + apply Z.compare_lt_iff. lia.
    + apply Z.compare_gt_iff. lia.
    + apply Z.compare_lt_iff. lia.
  - rewrite Z.min_r by lia.
    rewrite !shl_align_value by lia. rewrite Z.sub_diag, Z.mul_1_r.
    pose proof (valid_lt my mx ey ex Hy Hx Hgt) as H.
    destruct sx, sy.
    + apply Z.compare_lt_iff. lia.
    + apply Z.compare_lt_iff. lia.
    + apply Z.compare_gt_iff. lia.
    + apply Z.compare_gt_iff. lia.
Qed.
End Binary64Facts.

(** ** Totals *)

(** The amounts of the seventy percent sale, as the code computes them:
    the discount on 700 is the binary64 value just below 490
    (489.99999999999994) and the total the one just above 210
    (210.00000000000006), so that 210 tendered is refused. *)
Lemma seventy_percent_amounts :
  Binary64.calculateTotal seventyPercentState
  = {| Binary64.subtotal := S754_finite false 6157265115545600 (-43);
       Binary64.discountAmount := S754_finite false 8620171161763839 (-44);
       Binary64.total := S754_finite false 7388718138654722 (-45) |}
  /\ Binary64.ltb (Binary64.discountAmount (Binary64.calculateTotal seventyPercentState))
                  (Binary64.ofQ 490) = true
  /\ Binary64.ltb (Binary64.ofQ 210)
                  (Binary64.total (Binary64.calculateTotal seventyPercentState)) = true
  /\ Binary64.buttonDisabled seventyPercentState = true
  /\ Binary64.kembalian seventyPercentState = None.
Proof. vm_compute. repeat split. Qed.





(** ** Checkout *)

Lemma buttonDisabled_binary64_false (st : State) :
  Binary64.buttonDisabled st = false
  <-> cart st <> []
      /\ exists a, paymentAmount st = Js.Entered a
                   /\ Binary64.ltb (Binary64.ofQ a)
                                   (Binary64.total (Binary64.calculateTotal st)) = false.
Proof.
  unfold Binary64.buttonDisabled. rewrite !orb_false_iff, negb_false_iff.
  split.
  - intros [[Hlen Htruthy] Hlt]. split.
    + intros Hnil. rewrite Hnil in Hlen. discriminate Hlen.
    + destruct (paymentAmount st) as [|a]; [discriminate Htruthy|].
      exists a. split; [reflexivity | exact Hlt].
  - intros [Hcart [a [Ha Hlt]]]. rewrite Ha. repeat split.
    + destruct (cart st); [congruence | reflexivity].
    + exact Hlt.
Qed.

Lemma kembalian_binary64_entered (st : State) (a : Q) :
  paymentAmount st = Js.Entered a ->
  Binary64.kembalian st
  = if Binary64.geb (Binary64.ofQ a) (Binary64.total (Binary64.calculateTotal st))
    then Some (Binary64.change st)
    else None.
Proof. intros Ha. unfold Binary64.kembalian. rewrite Ha. reflexivity. Qed.

Lemma kembalian_binary64_some (st : State) :
  Binary64.kembalian st <> None
  <-> exists a, paymentAmount st = Js.Entered a
                /\ Binary64.geb (Binary64.ofQ a)
                                (Binary64.total (Binary64.calculateTotal st)) = true.
Proof.
  destruct (paymentAmount st) as [|a] eqn:Ea.
  - unfold Binary64.kembalian. rewrite Ea.
    split; [intros H; exfalso; apply H; reflexivity
           | intros [a [H _]]; discriminate H].
  - rewrite (kembalian_binary64_entered st a Ea).
    destruct (Binary64.geb (Binary64.ofQ a)
                           (Binary64.total (Binary64.calculateTotal st))) eqn:E.
    + split; [intros _; exists a; split; [reflexivity | exact E]
             | intros _; discriminate].
    + split; [congruence|]. intros [a' [Ha Hge]]. injection Ha as <-. congruence.
Qed.

Lemma change_entered (st : State) (a : Q) :
  paymentAmount st = Js.Entered a ->
  Binary64.change st
  = Binary64.sub (Binary64.ofQ a) (Binary64.total (Binary64.calculateTotal st)).
Proof. intros Ha. unfold Binary64.change. rewrite Ha. reflexivity. Qed.

(** C3 (as the code has it). Checkout is allowed (the button is enabled)
    exactly when the cart is not empty, the amount field holds a number and
    that number is at least the total the code computed, or cannot be
    compared with it because the total is [NaN]; the sign of the amount is
    not tested. When checkout is allowed the change is the binary64
    difference of the amount and the total, it is never below zero, and it
    is what the change line shows whenever the two can be compared. *)
Theorem checkout_allowed_binary64 (st : State) :
  (Binary64.buttonDisabled st = false
   <-> cart st <> []
       /\ exists a, paymentAmount st = Js.Entered a
                    /\ (Binary64.geb (Binary64.ofQ a)
                                     (Binary64.total (Binary64.calculateTotal st)) = true
                        \/ Binary64.compare (Binary64.ofQ a)
                             (Binary64.total (Binary64.calculateTotal st)) = None))
  /\ (Binary64.buttonDisabled st = false ->
      exists a, paymentAmount st = Js.Entered a
                /\ Binary64.change st
                   = Binary64.sub (Binary64.ofQ a)
                                  (Binary64.total (Binary64.calculateTotal st))
                /\ Binary64.isNegative (Binary64.change st) = false
                /\ (Binary64.compare (Binary64.ofQ a)
                      (Binary64.total (Binary64.calculateTotal st)) <> None ->
                    Binary64.kembalian st = Some (Binary64.change st))).
Proof.
  split.
  - rewrite buttonDisabled_binary64_false.
    split; intros [Hcart [a [Ha H]]]; (split; [exact Hcart|]); exists a;
      (split; [exact Ha|]); apply ltb_false_iff; exact H.
  - intros Hen. apply buttonDisabled_binary64_false in Hen.
    destruct Hen as [_ [a [Ha Hlt]]]. exists a.
    split; [exact Ha|]. split; [apply change_entered; exact Ha|].
    split.
    + rewrite (change_entered st a Ha). apply sub_not_negative. exact Hlt.
    + intros Hcmp. apply ltb_false_iff in Hlt.
      destruct Hlt as [Hge | Hnone]; [|contradiction].
      rewrite (kembalian_binary64_entered st a Ha), Hge. reflexivity.
Qed.

Lemma checkout_allowed_binary64_witness :
  exists a, paymentAmount sampleState = Js.Entered a
            /\ Binary64.isNegative (Binary64.change sampleState) = false
            /\ Binary64.kembalian sampleState = Some (Binary64.change sampleState).
Proof.
  assert (Hen : Binary64.buttonDisabled sampleState = false)
    by (vm_compute; reflexivity).
  destruct (proj2 (checkout_allowed_binary64 sampleState) Hen)
    as [a [Ha [_ [Hsign Hline]]]].
  exists a. split; [exact Ha|]. split; [exact Hsign|].
  apply Hline. injection Ha as <-. vm_compute. discriminate.
Defined.

(** The claimed condition fails on the code in two ways: with a customer
    type at 150 percent the total of the sample cart is -12500, and a
    tendered amount of -100, which is negative, enables the button; and
    with a subtotal that overflows the total is [NaN], which enables the
    button for an amount that is not at least the total. *)
Lemma checkout_condition_refuted :
  ~ Spec64.checkoutAllowed (stateAt 150 (-100))
  /\ ~ Spec64.checkoutAllowed overflowState.
Proof.
  split; intros [Hiff _].
  - assert (Hen : Binary64.buttonDisabled (stateAt 150 (-100)) = false)
      by (vm_compute; reflexivity).
    apply Hiff in Hen. destruct Hen as [_ [a [Ha [Hsign _]]]].
    injection Ha as <-. vm_compute in Hsign. apply Hsign. reflexivity.
  - assert (Hen : Binary64.buttonDisabled overflowState = false)
      by (vm_compute; reflexivity).
    apply Hiff in Hen. destruct Hen as [_ [a [Ha [_ Hge]]]].
    injection Ha as <-. vm_compute in Hge. discriminate Hge.
Qed.

(** X8. The change line is drawn only for an entered amount that is at
    least the computed total, and shows the binary64 difference of the
    two, never a number below zero. With a cart that is not empty, a drawn
    change line means an enabled button; an enabled button means a drawn
    change line unless amount and total cannot be compared (a [NaN]
    total), in which case the button is enabled without a change line. *)
Theorem kembalian_binary64 (st : State) :
  (forall k, Binary64.kembalian st = Some k ->
     exists a, paymentAmount st = Js.Entered a
               /\ Binary64.geb (Binary64.ofQ a)
                               (Binary64.total (Binary64.calculateTotal st)) = true
               /\ k = Binary64.sub (Binary64.ofQ a)
                                   (Binary64.total (Binary64.calculateTotal st))
               /\ Binary64.isNegative k = false)
  /\ (cart st <> [] -> Binary64.kembalian st <> None ->
      Binary64.buttonDisabled st = false)
  /\ (Binary64.buttonDisabled st = false ->
      Binary64.kembalian st <> None
      \/ exists a, paymentAmount st = Js.Entered a
                   /\ Binary64.compare (Binary64.ofQ a)
                        (Binary64.total (Binary64.calculateTotal st)) = None).
Proof.
  split; [|split].
  - intros k Hk.
    assert (Hne : Binary64.kembalian st <> None) by congruence.
    apply kembalian_binary64_some in Hne. destruct Hne as [a [Ha Hge]].
    exists a. split; [exact Ha|]. split; [exact Hge|].
    assert (Hk' : k = Binary64.change st).
    { rewrite (kembalian_binary64_entered st a Ha), Hge in Hk.
      injection Hk as <-. reflexivity. }
    rewrite Hk', (change_entered st a Ha). split; [reflexivity|].
    apply sub_not_negative. apply ltb_false_iff. left. exact Hge.
  - intros Hcart Hline. apply kembalian_binary64_some in Hline.
    destruct Hline as [a [Ha Hge]].
    apply buttonDisabled_binary64_false. split; [exact Hcart|].
    exists a. split; [exact Ha|]. apply ltb_false_iff. left. exact Hge.
  - intros Hen. apply buttonDisabled_binary64_false in Hen.
    destruct Hen as [_ [a [Ha Hlt]]]. apply ltb_false_iff in Hlt.
    destruct Hlt as [Hge | Hnone].
    + left. apply kembalian_binary64_some. exists a. split; assumption.
    + right. exists a. split; assumption.
Qed.

Lemma kembalian_binary64_witness :
  Binary64.buttonDisabled sampleState = false
  /\ exists a, paymentAmount overflowState = Js.Entered a
               /\ Binary64.compare (Binary64.ofQ a)
                    (Binary64.total (Binary64.calculateTotal overflowState)) = None.
Proof.
  split.
  - apply (proj1 (proj2 (kembalian_binary64 sampleState))).
    + discriminate.
    + vm_compute. discriminate.
  - destruct (proj2 (proj2 (kembalian_binary64 overflowState))) as [H | H].
    + vm_compute. reflexivity.
    + exfalso. apply H. vm_compute. reflexivity.
    + exact H.
Defined.
